(** * Billing engine of the inventory backend

    A shallow embedding of [app/models/billing.py], [app/models/product.py]
    and of the bill handlers of [app/routes/billing_routes.py], followed by
    the properties of bill totals, stock bookkeeping and item life cycle.

    Conventions of the embedding.
    - [db.Float] columns are exact rationals ([Q]); rounding, infinities and
      NaN of binary floating point are outside the model.  The statements
      relate the amounts the code computes to each other, operation by
      operation; none states a bound that only exact arithmetic gives.
      [round(x, 2)] is the rounding of a rational to hundredths.
      [db.Integer] columns are [Z], [db.String] columns are [string], a
      nullable string column is [option string].
    - The tables [products] and [bills] are finite maps keyed by primary key;
      [bill_items] and [payments] are lists of rows in insertion order, each
      row carrying its primary key.
    - A request runs in a session: a working copy of the tables next to the
      stored one.  [db.session.commit()] stores the working copy,
      [db.session.rollback()] forgets it.  A commit may raise; whether the
      n-th commit of a request does is read from the environment. *)

From Stdlib Require Import ZArith QArith Qminmax String Ascii List Lia.
From Stdlib Require Import Qround DecimalString Lqa.
From stdpp Require Import base option list gmap strings fin_maps.

Import ListNotations.
Local Open Scope Z_scope.
Local Open Scope string_scope.

(** ** Python primitives used by the handlers *)

Module Py.

(** [str(n)] for an integer. *)
Definition str (n : Z) : string := NilZero.string_of_int (Z.to_int n).

(** [s.zfill(width)] for a string without sign. *)
Definition zfill (width : nat) (s : string) : string :=
  String.concat "" (repeat "0" (width - String.length s)) ++ s.

(** [s[-k:]]: the last [k] characters of [s]. *)
Definition last_chars (k : nat) (s : string) : string :=
  substring (String.length s - k) k s.

(** [max(a, b)]: the first argument unless the second is strictly larger. *)
Definition max (a b : Q) : Q :=
  match a ?= b with Lt => b | _ => a end.

(** [a >= b] and [a > b] on numbers. *)
Definition ge (a b : Q) : bool := Qle_bool b a.
Definition gt (a b : Q) : bool := negb (Qle_bool a b).

(** [round(x, 2)]: the nearest multiple of 1/100, a tie going to the even
    one. *)
Definition round2 (x : Q) : Q :=
  let scaled := (x * 100)%Q in
  let below := Qfloor scaled in
  let nearest :=
    match (scaled - inject_Z below ?= 1 # 2)%Q with
    | Lt => below
    | Gt => below + 1
    | Eq => if Z.even below then below else below + 1
    end in
  (inject_Z nearest / 100)%Q.

(** [s or ''] for a nullable string. *)
Definition or_empty (s : option string) : string := default "" s.

End Py.

(** ** Rows of the tables *)

(** [app/models/product.py], the columns the billing engine reads. *)
Module Product.
Record t := mk {
  name : string;
  model : option string;
  type : option string;
  sell_price : Q;
  quantity : Z
}.

Definition with_quantity (q : Z) (p : t) : t :=
  mk (name p) (model p) (type p) (sell_price p) q.
End Product.

(** [BillItem] of [app/models/billing.py]. *)
Module BillItem.
Record t := mk {
  id : Z;
  bill_id : Z;
  product_id : Z;
  product_name : string;
  product_model : string;
  product_type : string;
  sell_price : Q;
  quantity : Z;
  total : Q;
  item_status : string
}.

Definition with_status (s : string) (i : t) : t :=
  mk (id i) (bill_id i) (product_id i) (product_name i) (product_model i)
     (product_type i) (sell_price i) (quantity i) (total i) s.

Definition with_ids (i b : Z) (it : t) : t :=
  mk i b (product_id it) (product_name it) (product_model it)
     (product_type it) (sell_price it) (quantity it) (total it)
     (item_status it).
End BillItem.

(** [Payment] of [app/models/billing.py]. *)
Module Payment.
Record t := mk {
  id : Z;
  bill_id : option Z;
  payment_id : string;
  amount : Q;
  method : string;
  status : string
}.

Definition with_status (s : string) (p : t) : t :=
  mk (id p) (bill_id p) (payment_id p) (amount p) (method p) s.
End Payment.

(** [Bill] of [app/models/billing.py]; its items are read through the
    [items] relationship, see [bill_items_of] below. *)
Module Bill.
Record t := mk {
  bill_number : string;
  customer_name : string;
  subtotal : Q;
  discount : Q;
  discount_type : string;
  tax : Q;
  tax_type : string;
  total : Q;
  paid_amount : Q;
  change_amount : Q;
  payment_method : string;
  payment_status : string
}.

Local Open Scope Q_scope.

(** The amounts [calculate_totals] derives on the way. *)
Definition discount_amount (discount_type : string) (discount subtotal : Q) : Q :=
  if String.eqb discount_type "percentage"
  then (subtotal * discount) / 100
  else discount.

Definition tax_amount (tax_type : string) (tax subtotal discount_amount : Q) : Q :=
  if String.eqb tax_type "percentage"
  then ((subtotal - discount_amount) * tax) / 100
  else tax.

(** [sum(item.total for item in self.items)]: Python's [sum] starts from
    0 and adds from the left. *)
Definition sum_totals (items : list BillItem.t) : Q :=
  fold_left (fun acc it => acc + BillItem.total it) items 0.

Definition status_of (paid_amount total : Q) : string :=
  if Py.ge paid_amount total then "paid"
  else if Py.gt paid_amount 0 then "partial"
  else "pending".

(** [Bill.calculate_totals], with [self.items] passed as [items]. *)
Definition calculate_totals (self : t) (items : list BillItem.t) : t :=
  let subtotal := sum_totals items in
  let discount_amount := discount_amount (discount_type self) (discount self) subtotal in
  let tax_amount := tax_amount (tax_type self) (tax self) subtotal discount_amount in
  let total := subtotal - discount_amount + tax_amount in
  let change_amount := Py.max 0 (paid_amount self - total) in
  mk (bill_number self) (customer_name self)
     subtotal (discount self) (discount_type self) (tax self) (tax_type self)
     total (paid_amount self) change_amount (payment_method self)
     (status_of (paid_amount self) total).
End Bill.

(** ** The database and the session *)

Record DB := mkDB {
  products : gmap Z Product.t;
  bills : gmap Z Bill.t;
  bill_items : list BillItem.t;
  payments : list Payment.t
}.

(** What a request reads from outside the database. *)
Record Date := mkDate { year : Z; month : Z; day : Z }.

Record Env := mkEnv {
  (** [datetime.now()] *)
  now : Date;
  (** the eight characters the n-th call of [random.choices] returns *)
  random_chars : nat -> string;
  (** [Some e] when the n-th [db.session.commit()] of the request raises an
      error of the database server whose text is [e] *)
  commit_raises : nat -> option string
}.

(** Primary keys are handed out in increasing order. *)
Definition next_id (ids : list Z) : Z := 1 + fold_right Z.max 0 ids.

(** [Bill.query.filter_by(bill_number=bill_number).first()] *)
Definition find_bill_by_number (bill_number : string) (db : DB) : option (Z * Bill.t) :=
  List.find (fun kb => String.eqb (Bill.bill_number (snd kb)) bill_number)
            (map_to_list (bills db)).

(** [BillItem.query.get(item_id)] *)
Definition find_item (item_id : Z) (db : DB) : option BillItem.t :=
  List.find (fun it => Z.eqb (BillItem.id it) item_id) (bill_items db).

(** The [items] relationship of a bill: the rows of [bill_items] that point
    to it, loaded from the working copy on first access. *)
Definition bill_items_of (bill_id : Z) (db : DB) : list BillItem.t :=
  filter (fun it => BillItem.bill_id it = bill_id) (bill_items db).

(** The [payments] backref of a bill. *)
Definition payments_of (bill_id : Z) (db : DB) : list Payment.t :=
  filter (fun p => Payment.bill_id p = Some bill_id) (payments db).

Definition set_products (ps : gmap Z Product.t) (db : DB) : DB :=
  mkDB ps (bills db) (bill_items db) (payments db).

Definition set_bill (bill_id : Z) (b : Bill.t) (db : DB) : DB :=
  mkDB (products db) (<[bill_id := b]> (bills db)) (bill_items db) (payments db).

Definition set_bill_items (its : list BillItem.t) (db : DB) : DB :=
  mkDB (products db) (bills db) its (payments db).

Definition set_payments (ps : list Payment.t) (db : DB) : DB :=
  mkDB (products db) (bills db) (bill_items db) ps.

(** [product.quantity += delta] on the row [product_id], when it exists. *)
Definition add_stock (product_id delta : Z) (ps : gmap Z Product.t) : gmap Z Product.t :=
  match ps !! product_id with
  | Some product =>
      <[product_id := Product.with_quantity (Product.quantity product + delta) product]> ps
  | None => ps
  end.

Module Session.

Record t := mk { stored : DB; working : DB }.

Definition start (db : DB) : t := mk db db.

Definition update (f : DB -> DB) (s : t) : t := mk (stored s) (f (working s)).

Definition rollback (s : t) : t := mk (stored s) (stored s).

(** [payments.bill_id] is declared [nullable=False]. *)
Definition not_null_ok (db : DB) : bool :=
  forallb (fun p => bool_decide (is_Some (Payment.bill_id p))) (payments db).

Definition integrity_error : string :=
  "(pymysql.err.IntegrityError) (1048, Column 'bill_id' cannot be null)".

(** [db.session.commit()], the [n]-th of the request: [inl e] when it
    raises, leaving the stored tables as they were. *)
Definition commit (env : Env) (n : nat) (s : t) : string + t :=
  match commit_raises env n with
  | Some e => inl e
  | None =>
      if not_null_ok (working s) then inr (mk (working s) (working s))
      else inl integrity_error
  end.

Definition duplicate_error : string :=
  "(pymysql.err.IntegrityError) (1062, Duplicate entry for key 'payment_id')".

(** The commit that inserts a payment row: [payments.payment_id] is
    declared [unique=True], so a row with a [payment_id] that is already
    stored makes the commit raise. *)
Definition commit_payment (env : Env) (n : nat) (payment_id : string) (s : t)
    : string + t :=
  if existsb (fun p => String.eqb (Payment.payment_id p) payment_id)
             (payments (stored s))
  then inl duplicate_error
  else commit env n s.

(** [db.session.add(bill)] for a new bill with its appended items: the
    bill and each item get the next primary key, the items the bill's. *)
Definition number_items (bill_id first_id : Z) (items : list BillItem.t) : list BillItem.t :=
  imap (fun k it => BillItem.with_ids (first_id + Z.of_nat k) bill_id it) items.

Definition add_bill (bill : Bill.t) (items : list BillItem.t) (db : DB) : Z * DB :=
  let bill_id := next_id (map fst (map_to_list (bills db))) in
  let first_id := next_id (map BillItem.id (bill_items db)) in
  (bill_id,
   mkDB (products db) (<[bill_id := bill]> (bills db))
        (bill_items db ++ number_items bill_id first_id items)
        (payments db)).

(** [db.session.add(payment)] *)
Definition add_payment (bill_id : Z) (payment_id : string) (amount : Q)
    (method status : string) (db : DB) : DB :=
  let id := next_id (map Payment.id (payments db)) in
  set_payments
    (payments db ++ [Payment.mk id (Some bill_id) payment_id amount method status]) db.

(** [db.session.delete(item)] *)
Definition delete_item (item_id : Z) (db : DB) : DB :=
  set_bill_items (filter (fun it => BillItem.id it <> item_id) (bill_items db)) db.

(** [db.session.delete(bill)].  [Bill.items] is declared with
    [cascade='all, delete-orphan'], so the items go with the bill.
    [Bill.payments] is the backref of [Payment.bill] and has no delete
    cascade: the unit of work detaches the bill's payments by writing
    NULL to their [bill_id]. *)
Definition delete_bill (bill_id : Z) (db : DB) : DB :=
  mkDB (products db) (delete bill_id (bills db))
       (filter (fun it => BillItem.bill_id it <> bill_id) (bill_items db))
       (map (fun p => if bool_decide (Payment.bill_id p = Some bill_id)
                      then Payment.mk (Payment.id p) None (Payment.payment_id p)
                             (Payment.amount p) (Payment.method p) (Payment.status p)
                      else p)
            (payments db)).

End Session.

(** ** The handlers of [app/routes/billing_routes.py] *)

Module Routes.

(** One entry of [items_added] in the answer of [create_bill]. *)
Record AddedItem := mkAdded {
  added_name : string;
  added_quantity : Z;
  added_total : Q;
  added_status : string
}.

(** The JSON body of an answer.  [BillCreated] carries the total and the
    change as answered, rounded to two decimals; [ItemVoided] carries the
    bill and its items as stored, from which [to_dict] writes the body. *)
Inductive Body :=
| Error (error : string)
| BillCreated (billNumber : string) (billId : Z) (total changeAmount : Q)
              (items : list AddedItem)
| ItemCompleted (id : Z) (status : string)
| BillCancelled
| ItemVoided (bill : Bill.t) (items : list BillItem.t).

Definition Response : Type := Body * Z.

(** [str(e)] for the exception [get_or_404] raises; the handlers catch it
    with [except Exception] and answer 400. *)
Definition not_found : string :=
  "404 Not Found: The requested URL was not found on the server. If you entered the URL manually please check your spelling and try again.".

(** The body of the loop of [generate_unique_bill_number]: the candidate
    built from the date and the random characters. *)
Definition bill_number_candidate (d : Date) (chars : string) : string :=
  "BT-" ++ Py.last_chars 2 (Py.str (year d)) ++ Py.zfill 2 (Py.str (month d))
        ++ Py.zfill 2 (Py.str (day d)) ++ "-" ++ chars.

(** [generate_unique_bill_number]: [while True] runs as long as [fuel]
    lasts; [None] when the loop is still running after [fuel] rounds.
    [attempt] counts the calls of [random.choices] so far. *)
Fixpoint generate_unique_bill_number (fuel : nat) (env : Env) (attempt : nat)
    (db : DB) : option string :=
  match fuel with
  | O => None
  | S fuel' =>
      let bill_number := bill_number_candidate (now env) (random_chars env attempt) in
      match find_bill_by_number bill_number db with
      | None => Some bill_number
      | Some _ => generate_unique_bill_number fuel' env (S attempt) db
      end
  end.

(** One element of [data['items']]; a field is [None] when the key is
    missing, which makes the subscript raise [KeyError]. *)
Record ItemData := mkItem { productId : option Z; quantity : option Z }.

(** The JSON body of [POST /billing/bills], with the defaults of
    [data.get] filled in; a missing or empty [items] is []. *)
Record BillData := mkData {
  items : list ItemData;
  customerName : string;
  discount : Q;
  discountType : string;
  tax : Q;
  taxType : string;
  paidAmount : Q;
  paymentMethod : string
}.

(** How the loop over [data['items']] ends. *)
Inductive LoopResult :=
| Returned (r : Response)
| Raised (e : string)
| Finished (ps : gmap Z Product.t) (bill_items : list BillItem.t)
           (items_added : list AddedItem).

(** The loop of [create_bill] over the requested lines.  [ps] is the
    [products] table of the working copy, [bill_items] is [bill.items].
    The message for insufficient stock is formatted after
    [db.session.rollback()], which expires the product: its quantity is
    read again from the [stored] table.  The loop changes quantities only,
    so the name read again is the one the loop saw. *)
Fixpoint add_items (stored : gmap Z Product.t) (lines : list ItemData)
    (ps : gmap Z Product.t) (bill_items : list BillItem.t)
    (items_added : list AddedItem) : LoopResult :=
  match lines with
  | [] => Finished ps bill_items items_added
  | item_data :: rest =>
      match productId item_data with
      | None => Raised "'productId'"
      | Some product_id =>
          match ps !! product_id with
          | None =>
              Returned (Error ("Product with ID " ++ Py.str product_id ++ " not found"), 404)
          | Some product =>
              match quantity item_data with
              | None => Raised "'quantity'"
              | Some quantity =>
                  if (quantity <=? 0)%Z then
                    Returned (Error ("Invalid quantity for " ++ Product.name product), 400)
                  else if (Product.quantity product <? quantity)%Z then
                    let reloaded := default product (stored !! product_id) in
                    Returned (Error ("Insufficient stock for " ++ Product.name product
                                     ++ ". Available: "
                                     ++ Py.str (Product.quantity reloaded)), 400)
                  else
                    let item_total := (Product.sell_price product * inject_Z quantity)%Q in
                    let bill_item :=
                      BillItem.mk 0 0 product_id (Product.name product)
                        (Py.or_empty (Product.model product))
                        (Py.or_empty (Product.type product))
                        (Product.sell_price product) quantity item_total "pending" in
                    add_items stored rest
                      (<[product_id :=
                           Product.with_quantity (Product.quantity product - quantity) product]> ps)
                      (bill_items ++ [bill_item])
                      (items_added
                         ++ [mkAdded (Product.name product) quantity item_total "pending"])
              end
          end
      end
  end.

(** [create_bill].  [None] when the bill number loop does not return
    within [fuel] rounds; otherwise the answer and the stored tables
    after the request. *)
Definition create_bill (env : Env) (fuel : nat) (data : BillData) (db : DB)
    : option (Response * DB) :=
  let s := Session.start db in
  match items data with
  | [] => Some ((Error "No items in bill", 400), Session.stored s)
  | _ =>
      match generate_unique_bill_number fuel env 0 (Session.working s) with
      | None => None
      | Some bill_number =>
          let bill :=
            Bill.mk bill_number (customerName data) 0 (discount data)
              (discountType data) (tax data) (taxType data) 0 (paidAmount data) 0
              (paymentMethod data) "pending" in
          match add_items (products (Session.stored s)) (items data)
                  (products (Session.working s)) [] [] with
          | Returned r => Some (r, Session.stored (Session.rollback s))
          | Raised e => Some ((Error e, 400), Session.stored (Session.rollback s))
          | Finished ps bill_items items_added =>
              let bill := Bill.calculate_totals bill bill_items in
              let added := Session.add_bill bill bill_items (set_products ps (Session.working s)) in
              let bill_id := fst added in
              let s := Session.update (fun _ => snd added) s in
              match Session.commit env 0 s with
              | inl e => Some ((Error e, 400), Session.stored (Session.rollback s))
              | inr s =>
                  let answer :=
                    (BillCreated bill_number bill_id (Py.round2 (Bill.total bill))
                       (Py.round2 (Bill.change_amount bill)) items_added, 201) in
                  if Py.gt (Bill.paid_amount bill) 0 then
                    let s :=
                      Session.update
                        (Session.add_payment bill_id ("PAY-" ++ bill_number)
                           (Bill.paid_amount bill) (Bill.payment_method bill)
                           (if Py.ge (Bill.paid_amount bill) (Bill.total bill)
                            then "completed" else "partial")) s in
                    match Session.commit_payment env 1 ("PAY-" ++ bill_number) s with
                    | inl e => Some ((Error e, 400), Session.stored (Session.rollback s))
                    | inr s => Some (answer, Session.stored s)
                    end
                  else Some (answer, Session.stored s)
              end
          end
      end
  end.

(** [complete_bill_item] *)
Definition complete_bill_item (env : Env) (bill_id item_id : Z) (db : DB)
    : Response * DB :=
  let s := Session.start db in
  match bills (Session.working s) !! bill_id with
  | None => ((Error not_found, 400), Session.stored (Session.rollback s))
  | Some bill =>
      match find_item item_id (Session.working s) with
      | None => ((Error not_found, 400), Session.stored (Session.rollback s))
      | Some item =>
          if negb (BillItem.bill_id item =? bill_id)%Z then
            ((Error "Item does not belong to this bill", 400), Session.stored s)
          else if negb (String.eqb (BillItem.item_status item) "pending") then
            ((Error "Item is already completed", 400), Session.stored s)
          else
            let s :=
              Session.update
                (fun w => set_bill_items
                   (map (fun it => if (BillItem.id it =? item_id)%Z
                                   then BillItem.with_status "completed" it else it)
                        (bill_items w)) w) s in
            match Session.commit env 0 s with
            | inl e => ((Error e, 400), Session.stored (Session.rollback s))
            | inr s => ((ItemCompleted item_id "completed", 200), Session.stored s)
            end
      end
  end.

(** The first loop of [cancel_bill]: stock goes back for the items that
    are not completed. *)
Definition restore_stock (its : list BillItem.t) (ps : gmap Z Product.t)
    : gmap Z Product.t :=
  fold_left
    (fun ps item =>
       if negb (String.eqb (BillItem.item_status item) "completed")
       then add_stock (BillItem.product_id item) (BillItem.quantity item) ps
       else ps)
    its ps.

(** The second loop of [cancel_bill]. *)
Definition refund_payments (bill_id : Z) (pays : list Payment.t) : list Payment.t :=
  map (fun p => if bool_decide (Payment.bill_id p = Some bill_id)
                then Payment.with_status "refunded" p else p) pays.

(** [cancel_bill].  The two loops and the deletion change the working
    copy; the commit at the end writes them or raises. *)
Definition cancel_bill (env : Env) (bill_id : Z) (db : DB) : Response * DB :=
  let s := Session.start db in
  match bills (Session.working s) !! bill_id with
  | None => ((Error not_found, 400), Session.stored (Session.rollback s))
  | Some bill =>
      let s :=
        Session.update
          (fun w => set_products
             (restore_stock (bill_items_of bill_id w) (products w)) w) s in
      let s :=
        Session.update
          (fun w => set_payments (refund_payments bill_id (payments w)) w) s in
      let s := Session.update (Session.delete_bill bill_id) s in
      match Session.commit env 0 s with
      | inl e => ((Error e, 400), Session.stored (Session.rollback s))
      | inr s => ((BillCancelled, 200), Session.stored s)
      end
  end.

(** [void_bill_item].  [bill.items] is read for the first time inside
    [calculate_totals], after [db.session.delete(item)]: the relationship
    is loaded then, behind the flush of the deletion, so the totals are
    taken over the rows that remain. *)
Definition void_bill_item (env : Env) (bill_id item_id : Z) (db : DB)
    : Response * DB :=
  let s := Session.start db in
  match bills (Session.working s) !! bill_id with
  | None => ((Error not_found, 400), Session.stored (Session.rollback s))
  | Some bill =>
      match find_item item_id (Session.working s) with
      | None => ((Error not_found, 400), Session.stored (Session.rollback s))
      | Some item =>
          if negb (BillItem.bill_id item =? bill_id)%Z then
            ((Error "Item does not belong to this bill", 400), Session.stored s)
          else
            let s :=
              if negb (String.eqb (BillItem.item_status item) "completed") then
                Session.update
                  (fun w => set_products
                     (add_stock (BillItem.product_id item) (BillItem.quantity item)
                        (products w)) w) s
              else s in
            let s := Session.update (Session.delete_item item_id) s in
            let remaining := bill_items_of bill_id (Session.working s) in
            let bill := Bill.calculate_totals bill remaining in
            let s := Session.update (set_bill bill_id bill) s in
            match Session.commit env 0 s with
            | inl e => ((Error e, 400), Session.stored (Session.rollback s))
            | inr s => ((ItemVoided bill remaining, 200), Session.stored s)
            end
      end
  end.

End Routes.

(** ** Sample data

    A shop with one product, the request of the worked example (four lamps
    at 100, 10 percent discount, 5 percent tax, 400 paid) and a few stored
    states used to run the handlers. *)

Module Sample.
Import Routes.

Definition lamp : Product.t := Product.mk "Lamp" None None 100 10.

Definition shop : DB := mkDB {[ 1 := lamp ]} ∅ [] [].

Definition today : Date := mkDate 2026 11 4.

Definition env : Env := mkEnv today (fun _ => "ABCDEFGH") (fun _ => None).

(** The first candidate drawn is taken in [taken] below, the second is
    free. *)
Definition env_second_draw : Env :=
  mkEnv today (fun n => match n with O => "ABCDEFGH" | _ => "ZYXWVUT2" end)
        (fun _ => None).

(** The second commit of the request loses its connection. *)
Definition env_payment_fails : Env :=
  mkEnv today (fun _ => "ABCDEFGH")
    (fun n => match n with
              | 1%nat => Some "(pymysql.err.OperationalError) (2013, Lost connection to MySQL server during query)"
              | _ => None
              end).

Definition four_lamps : BillData :=
  mkData [mkItem (Some 1) (Some 4)] "Walk-in Customer"
         10 "percentage" 5 "percentage" 400 "cash".


(** Two lamps without discount or tax, 50 paid on a total of 200. *)
Definition two_lamps : BillData :=
  mkData [mkItem (Some 1) (Some 2)] "Walk-in Customer"
         0 "amount" 0 "percentage" 50 "cash".

Definition forty_lamps : BillData :=
  mkData [mkItem (Some 1) (Some 40)] "Walk-in Customer"
         10 "percentage" 5 "percentage" 400 "cash".

Definition item (id bill_id quantity : Z) (status : string) : BillItem.t :=
  BillItem.mk id bill_id 1 "Lamp" "" "" 100 quantity (100 * inject_Z quantity) status.

Definition bill (number : string) (discount : Q) (paid : Q) : Bill.t :=
  Bill.mk number "Walk-in Customer" 0 discount "percentage" 0 "percentage" 0
          paid 0 "cash" "pending".

(** Bill 1 holds a pending item of 3 and a completed item of 2, bill 2
    a pending item of 1; four lamps are left.  Nothing was paid. *)
Definition unpaid : DB :=
  mkDB {[ 1 := Product.with_quantity 4 lamp ]}
       {[ 1 := Bill.calculate_totals (bill "BT-261104-AAAAAAA1" 0 0)
                 [item 1 1 3 "pending"; item 2 1 2 "completed"];
          2 := Bill.calculate_totals (bill "BT-261104-AAAAAAA2" 0 0)
                 [item 3 2 1 "pending"] ]}
       [item 1 1 3 "pending"; item 2 1 2 "completed"; item 3 2 1 "pending"]
       [].

(** The same bills after 500 were paid on bill 1 when it was created. *)
Definition paid : DB :=
  mkDB (products unpaid)
       {[ 1 := Bill.calculate_totals (bill "BT-261104-AAAAAAA1" 0 500)
                 [item 1 1 3 "pending"; item 2 1 2 "completed"];
          2 := Bill.calculate_totals (bill "BT-261104-AAAAAAA2" 0 0)
                 [item 3 2 1 "pending"] ]}
       (bill_items unpaid)
       [Payment.mk 1 (Some 1) "PAY-BT-261104-AAAAAAA1" 500 "cash" "completed"].

(** The shop after the four lamps were billed and paid. *)
Definition four_lamps_bill : Bill.t :=
  Bill.calculate_totals
    (Bill.mk "BT-261104-ABCDEFGH" "Walk-in Customer" 0 10 "percentage" 5 "percentage"
             0 400 0 "cash" "pending")
    [item 0 0 4 "pending"].

Definition sold : DB :=
  mkDB {[ 1 := Product.with_quantity 6 lamp ]}
       {[ 1 := four_lamps_bill ]}
       [item 1 1 4 "pending"]
       [Payment.mk 1 (Some 1) "PAY-BT-261104-ABCDEFGH" 400 "cash" "completed"].

(** A shop that sells candles at an eighth each, and the bill for one. *)
Definition candle : Product.t := Product.mk "Candle" None None (1 # 8) 20.

Definition candles : DB := mkDB {[ 1 := lamp; 2 := candle ]} ∅ [] [].

Definition one_candle : BillData :=
  mkData [mkItem (Some 2) (Some 1)] "Walk-in Customer"
         0 "amount" 0 "percentage" 0 "cash".

Definition one_candle_bill : Bill.t :=
  Bill.calculate_totals
    (Bill.mk "BT-261104-ABCDEFGH" "Walk-in Customer" 0 0 "amount" 0 "percentage"
             0 0 0 "cash" "pending")
    [BillItem.mk 0 0 2 "Candle" "" "" (1 # 8) 1 ((1 # 8) * inject_Z 1) "pending"].

(** Every candidate the generator can draw is taken. *)
Definition taken : DB :=
  mkDB ∅ {[ 1 := bill "BT-261104-ABCDEFGH" 0 0 ]} [] [].

End Sample.

(** ** Reading aids for the statements *)

(** The line total the spec speaks of: price times quantity. *)
Definition line_total (it : BillItem.t) : Q :=
  (BillItem.sell_price it * inject_Z (BillItem.quantity it))%Q.

(** An item row stores its line total. *)
Definition line_total_ok (it : BillItem.t) : Prop :=
  BillItem.total it = line_total it.

(** The sum of a list of amounts. *)
Definition Qsum (l : list Q) : Q := fold_right Qplus 0%Q l.

(** The quantity a request asks of one product, over all its lines. *)
Definition requested (product_id : Z) (lines : list Routes.ItemData) : Z :=
  fold_right
    (fun line acc =>
       match Routes.productId line, Routes.quantity line with
       | Some pid, Some q => if bool_decide (pid = product_id) then q + acc else acc
       | _, _ => acc
       end)
    0 lines.


(** The quantity of one product held by the items that are not completed. *)
Definition restocked (product_id : Z) (its : list BillItem.t) : Z :=
  fold_right
    (fun it acc =>
       if bool_decide (BillItem.product_id it = product_id
                       /\ BillItem.item_status it <> "completed")
       then BillItem.quantity it + acc else acc)
    0 its.


(** ** The other handlers of [app/routes/billing_routes.py] *)

Module Handlers.
Import Routes.

(** The JSON bodies of these handlers, as the rows they are written from;
    [to_dict] rounds the amounts to two decimals when it writes them. *)
Inductive Answer :=
| Failed (error : string)
| PendingItems (bill_id : Z) (bill_number : string) (items : list BillItem.t)
| AllCompleted (completedCount : nat)
| BillDetail (bill : Bill.t) (items : list BillItem.t) (payments : list Payment.t)
| BillFound (bill : Bill.t) (items : list BillItem.t)
| PaymentUpdated (bill : Bill.t) (items : list BillItem.t).

(** [BillItem.query.filter_by(bill_id=bill_id, item_status='pending').all()] *)
Definition pending_items (bill_id : Z) (db : DB) : list BillItem.t :=
  filter (fun it => BillItem.bill_id it = bill_id /\ BillItem.item_status it = "pending")
         (bill_items db).

(** [get_pending_bill_items]: the handler catches the exception of
    [get_or_404] and answers 400 with a fixed text. *)
Definition get_pending_bill_items (bill_id : Z) (db : DB) : Answer * Z :=
  match bills db !! bill_id with
  | None => (Failed "Failed to fetch pending items", 400)
  | Some bill =>
      (PendingItems bill_id (Bill.bill_number bill) (pending_items bill_id db), 200)
  end.

(** [complete_all_bill_items]: the loop sets every row of [pending_items]
    to 'completed' and counts the rows. *)
Definition complete_all_bill_items (env : Env) (bill_id : Z) (db : DB)
    : (Answer * Z) * DB :=
  let s := Session.start db in
  match bills (Session.working s) !! bill_id with
  | None => ((Failed not_found, 400), Session.stored (Session.rollback s))
  | Some bill =>
      match pending_items bill_id (Session.working s) with
      | [] => ((Failed "No pending items found in this bill", 400), Session.stored s)
      | item :: others =>
          let completed_count := length (item :: others) in
          let s :=
            Session.update
              (fun w => set_bill_items
                 (map (fun it =>
                         if bool_decide (BillItem.bill_id it = bill_id
                                         /\ BillItem.item_status it = "pending")
                         then BillItem.with_status "completed" it else it)
                      (bill_items w)) w) s in
          match Session.commit env 0 s with
          | inl e => ((Failed e, 400), Session.stored (Session.rollback s))
          | inr s => ((AllCompleted completed_count, 200), Session.stored s)
          end
      end
  end.

(** [get_bill_by_id] *)
Definition get_bill_by_id (bill_id : Z) (db : DB) : Answer * Z :=
  match bills db !! bill_id with
  | None => (Failed "Bill not found", 404)
  | Some bill =>
      (BillDetail bill (bill_items_of bill_id db) (payments_of bill_id db), 200)
  end.

(** [get_bill_by_number] *)
Definition get_bill_by_number (bill_number : string) (db : DB) : Answer * Z :=
  match find_bill_by_number bill_number db with
  | None => (Failed "Bill not found", 404)
  | Some (bill_id, bill) => (BillFound bill (bill_items_of bill_id db), 200)
  end.

(** The JSON body of [PUT /billing/bills/<id>/payment]; a field is [None]
    when the key is missing.  The columns [reference] and [notes] of the
    payment are not part of the row model. *)
Record PaymentData := mkPayment {
  paidAmount : option Q;
  paymentMethod : option string;
  additionalAmount : option Q
}.

(** [update_bill_payment]; [hhmmss] is
    [datetime.now().strftime('%H%M%S')]. *)
Definition update_bill_payment (env : Env) (hhmmss : string) (bill_id : Z)
    (data : PaymentData) (db : DB) : (Answer * Z) * DB :=
  let s := Session.start db in
  match bills (Session.working s) !! bill_id with
  | None => ((Failed not_found, 400), Session.stored (Session.rollback s))
  | Some bill =>
      let bill :=
        Bill.mk (Bill.bill_number bill) (Bill.customer_name bill) (Bill.subtotal bill)
          (Bill.discount bill) (Bill.discount_type bill) (Bill.tax bill)
          (Bill.tax_type bill) (Bill.total bill)
          (default (Bill.paid_amount bill) (paidAmount data)) (Bill.change_amount bill)
          (default (Bill.payment_method bill) (paymentMethod data))
          (Bill.payment_status bill) in
      let its := bill_items_of bill_id (Session.working s) in
      let bill := Bill.calculate_totals bill its in
      let s := Session.update (set_bill bill_id bill) s in
      let payment_id := "PAY-" ++ Bill.bill_number bill ++ "-" ++ hhmmss in
      let s :=
        Session.update
          (Session.add_payment bill_id payment_id
             (default (Bill.paid_amount bill) (additionalAmount data))
             (Bill.payment_method bill) "completed") s in
      match Session.commit_payment env 0 payment_id s with
      | inl e => ((Failed e, 400), Session.stored (Session.rollback s))
      | inr s => ((PaymentUpdated bill its, 200), Session.stored s)
      end
  end.

(** A request that may change the stored tables. *)
Inductive Request :=
| CreateBill (fuel : nat) (data : BillData)
| CompleteBillItem (bill_id item_id : Z)
| CompleteAllBillItems (bill_id : Z)
| UpdateBillPayment (hhmmss : string) (bill_id : Z) (data : PaymentData)
| CancelBill (bill_id : Z)
| VoidBillItem (bill_id item_id : Z).

(** The stored tables after a request; [None] when the request does not
    return. *)
Definition handle (env : Env) (req : Request) (db : DB) : option DB :=
  match req with
  | CreateBill fuel data => snd <$> create_bill env fuel data db
  | CompleteBillItem bill_id item_id => Some (snd (complete_bill_item env bill_id item_id db))
  | CompleteAllBillItems bill_id => Some (snd (complete_all_bill_items env bill_id db))
  | UpdateBillPayment hhmmss bill_id data =>
      Some (snd (update_bill_payment env hhmmss bill_id data db))
  | CancelBill bill_id => Some (snd (cancel_bill env bill_id db))
  | VoidBillItem bill_id item_id => Some (snd (void_bill_item env bill_id item_id db))
  end.

End Handlers.

(** ** Conditions on the stored tables *)

(** The primary key of [bill_items] and the foreign keys of [bill_items]
    and [payments] to [bills]. *)
Definition keys_ok (db : DB) : Prop :=
  NoDup (map BillItem.id (bill_items db))
  /\ (forall it, it ∈ bill_items db -> is_Some (bills db !! BillItem.bill_id it))
  /\ (forall p, p ∈ payments db ->
        exists bill_id, Payment.bill_id p = Some bill_id /\ is_Some (bills db !! bill_id)).

(** No product is below zero and every item holds a positive quantity. *)
Definition stock_ok (db : DB) : Prop :=
  (forall pid p, products db !! pid = Some p -> 0 <= Product.quantity p)
  /\ (forall it, it ∈ bill_items db -> 0 < BillItem.quantity it).

(** Every stored bill carries the totals of its stored items. *)
Definition totals_ok (db : DB) : Prop :=
  forall bill_id bill,
    bills db !! bill_id = Some bill ->
    Bill.calculate_totals bill (bill_items_of bill_id db) = bill.

(** No two stored bills carry the same number. *)
Definition numbers_ok (db : DB) : Prop :=
  forall i j bi bj,
    bills db !! i = Some bi -> bills db !! j = Some bj ->
    Bill.bill_number bi = Bill.bill_number bj -> i = j.

(** Unfolds the session bookkeeping of a handler. *)
Ltac session_simpl :=
  cbn [Session.start Session.working Session.stored Session.update
       Session.rollback Session.delete_item Session.add_bill Session.add_payment
       set_bill_items set_products set_bill set_payments
       products bills bill_items payments fst snd].

Ltac session_simpl_in H :=
  cbn [Session.start Session.working Session.stored Session.update
       Session.rollback Session.delete_item Session.add_bill Session.add_payment
       set_bill_items set_products set_bill set_payments
       products bills bill_items payments fst snd] in H.

(** ** Bill totals *)

Section Totals.
Local Open Scope Q_scope.

Lemma fold_left_Qplus_acc (f : BillItem.t -> Q) (its : list BillItem.t) (a : Q) :
  fold_left (fun acc it => acc + f it) its a == a + Qsum (map f its).
Proof.
  revert a. induction its as [|it its IH]; intros a; simpl.
  - ring.
  - rewrite IH. ring.
Qed.

Lemma sum_totals_Qsum (its : list BillItem.t) :
  Bill.sum_totals its == Qsum (map BillItem.total its).
Proof.
  unfold Bill.sum_totals. rewrite fold_left_Qplus_acc. ring.
Qed.

Lemma map_line_total (its : list BillItem.t) :
  Forall line_total_ok its -> map BillItem.total its = map line_total its.
Proof.
  induction 1 as [|it its Hit _ IH]; simpl; [reflexivity|].
  rewrite Hit, IH. reflexivity.
Qed.

(** C1.  [calculate_totals] stores as subtotal the sum of the line totals
    of the bill's items, which is the sum of price times quantity when
    every row stores its line total; the discount is
    subtotal * discount / 100 for type 'percentage' and the flat discount
    otherwise; the tax is (subtotal - discount amount) * tax / 100 for
    type 'percentage' and the flat tax otherwise; and the total is
    subtotal - discount amount + tax amount, whatever its sign. *)
Theorem calculate_totals_formula (b : Bill.t) (its : list BillItem.t) :
  let b' := Bill.calculate_totals b its in
  let discountAmount :=
    if String.eqb (Bill.discount_type b) "percentage"
    then Bill.subtotal b' * Bill.discount b / 100 else Bill.discount b in
  let taxAmount :=
    if String.eqb (Bill.tax_type b) "percentage"
    then (Bill.subtotal b' - discountAmount) * Bill.tax b / 100 else Bill.tax b in
  Bill.subtotal b' == Qsum (map BillItem.total its)
  /\ (Forall line_total_ok its -> Bill.subtotal b' == Qsum (map line_total its))
  /\ Bill.total b' = Bill.subtotal b' - discountAmount + taxAmount.
Proof.
  cbn zeta. split; [|split].
  - apply sum_totals_Qsum.
  - intros Hok. cbn [Bill.calculate_totals Bill.subtotal].
    rewrite sum_totals_Qsum, (map_line_total its Hok). reflexivity.
  - reflexivity.
Qed.

Lemma calculate_totals_formula_witness :
  Bill.subtotal
    (Bill.calculate_totals (Sample.bill "BT-261104-AAAAAAA1" 10 0)
       [Sample.item 1 1 3 "pending"; Sample.item 2 1 2 "completed"])
  == Qsum (map line_total [Sample.item 1 1 3 "pending"; Sample.item 2 1 2 "completed"]).
Proof.
  apply (calculate_totals_formula (Sample.bill "BT-261104-AAAAAAA1" 10 0)
           [Sample.item 1 1 3 "pending"; Sample.item 2 1 2 "completed"]).
  repeat constructor.
Defined.

(** The worked example: four lamps at 100 with 10 percent discount and
    5 percent tax come to 378, and 400 paid leave 22 of change. *)
Example totals_of_four_lamps :
  let b := Bill.calculate_totals
             (Bill.mk "n" "c" 0 10 "percentage" 5 "percentage" 0 400 0 "cash" "pending")
             [Sample.item 1 1 4 "pending"] in
  Bill.subtotal b == 400 /\ Bill.total b == 378
  /\ Bill.change_amount b == 22 /\ Bill.payment_status b = "paid".
Proof. vm_compute. repeat split; reflexivity. Qed.

(** A flat discount above subtotal plus tax leaves a negative total. *)
Example total_may_be_negative :
  Bill.total
    (Bill.calculate_totals
       (Bill.mk "n" "c" 0 500 "amount" 0 "percentage" 0 0 0 "cash" "pending")
       [Sample.item 1 1 4 "pending"]) == -100.
Proof. vm_compute. reflexivity. Qed.

Lemma py_ge_true (a b : Q) : Py.ge a b = true <-> b <= a.
Proof. unfold Py.ge. apply Qle_bool_iff. Qed.

Lemma py_gt_true (a b : Q) : Py.gt a b = true <-> b < a.
Proof.
  unfold Py.gt. rewrite negb_true_iff. split.
  - intros H. apply Qnot_le_lt. intros Hle.
    apply Qle_bool_iff in Hle. congruence.
  - intros H. destruct (Qle_bool a b) eqn:E; [|reflexivity].
    apply Qle_bool_iff in E. exfalso. exact (Qlt_not_le _ _ H E).
Qed.

Lemma status_of_paid (paid total : Q) :
  total <= paid -> Bill.status_of paid total = "paid".
Proof.
  intros H. unfold Bill.status_of.
  destruct (Py.ge paid total) eqn:E; [reflexivity|].
  apply py_ge_true in H. congruence.
Qed.

Lemma status_of_below (paid total : Q) :
  paid < total ->
  Bill.status_of paid total = if Py.gt paid 0 then "partial" else "pending".
Proof.
  intros H. unfold Bill.status_of.
  destruct (Py.ge paid total) eqn:E; [|reflexivity].
  apply py_ge_true in E. exfalso. exact (Qlt_not_le _ _ H E).
Qed.

(** C4, as the claim has it, fails on a bill whose total is zero: with
    nothing paid its status is 'paid', not 'pending'. *)
Lemma payment_status_zero_total_paid :
  let b := Bill.calculate_totals (Sample.bill "BT-261104-AAAAAAA1" 100 0)
             [Sample.item 1 1 3 "pending"] in
  Bill.paid_amount b == 0
  /\ Bill.total b == 0
  /\ Bill.payment_status b = "paid"
  /\ Bill.payment_status b <> "pending".
Proof. vm_compute. repeat split; discriminate. Qed.

(** C4, amended.  [calculate_totals] sets the change to
    max(0, paid - total) and the status to 'paid' when paid >= total, to
    'partial' when 0 < paid < total, and to 'pending' when paid = 0 and
    the total is positive. *)
Theorem calculate_totals_payment (b : Bill.t) (its : list BillItem.t) :
  let b' := Bill.calculate_totals b its in
  Bill.change_amount b' = Qmax 0 (Bill.paid_amount b - Bill.total b')
  /\ (Bill.total b' <= Bill.paid_amount b -> Bill.payment_status b' = "paid")
  /\ (0 < Bill.paid_amount b /\ Bill.paid_amount b < Bill.total b' ->
      Bill.payment_status b' = "partial")
  /\ (Bill.paid_amount b == 0 /\ 0 < Bill.total b' ->
      Bill.payment_status b' = "pending").
Proof.
  cbn zeta. cbn [Bill.calculate_totals Bill.change_amount Bill.payment_status Bill.total].
  split; [reflexivity|]. split; [|split].
  - apply status_of_paid.
  - intros [Hpos Hlt]. rewrite (status_of_below _ _ Hlt).
    apply py_gt_true in Hpos. rewrite Hpos. reflexivity.
  - intros [Hz Hpos]. rewrite status_of_below by (rewrite Hz; exact Hpos).
    destruct (Py.gt (Bill.paid_amount b) 0) eqn:E; [|reflexivity].
    apply py_gt_true in E. rewrite Hz in E. exfalso. exact (Qlt_irrefl _ E).
Qed.

Lemma calculate_totals_payment_witness :
  let bill paid := Bill.mk "n" "c" 0 10 "percentage" 5 "percentage" 0 paid 0 "cash" "pending" in
  let its := [Sample.item 1 1 4 "pending"] in
  Bill.payment_status (Bill.calculate_totals (bill 400) its) = "paid"
  /\ Bill.payment_status (Bill.calculate_totals (bill 300) its) = "partial"
  /\ Bill.payment_status (Bill.calculate_totals (bill 0) its) = "pending".
Proof.
  cbn zeta. split; [|split].
  - apply (calculate_totals_payment
             (Bill.mk "n" "c" 0 10 "percentage" 5 "percentage" 0 400 0 "cash" "pending")
             [Sample.item 1 1 4 "pending"]).
    vm_compute. discriminate.
  - apply (calculate_totals_payment
             (Bill.mk "n" "c" 0 10 "percentage" 5 "percentage" 0 300 0 "cash" "pending")
             [Sample.item 1 1 4 "pending"]).
    split; vm_compute; reflexivity.
  - apply (calculate_totals_payment
             (Bill.mk "n" "c" 0 10 "percentage" 5 "percentage" 0 0 0 "cash" "pending")
             [Sample.item 1 1 4 "pending"]).
    split; vm_compute; reflexivity.
Defined.

(** [round(x, 2)] is within half a hundredth of [x]. *)
Lemma round2_near (x : Q) :
  x - (1 # 200) <= Py.round2 x /\ Py.round2 x <= x + (1 # 200).
Proof.
  unfold Py.round2.
  pose proof (Qfloor_le (x * 100)) as Hlow.
  pose proof (Qlt_floor (x * 100)) as Hhigh.
  set (below := Qfloor (x * 100)) in *.
  rewrite inject_Z_plus in Hhigh. change (inject_Z 1) with 1 in Hhigh.
  assert (Hdiv : forall z : Z, inject_Z z / 100 == inject_Z z * (1 # 100)).
  { intros z. field. }
  destruct (Qcompare_spec (x * 100 - inject_Z below) (1 # 2)) as [H|H|H].
  - destruct (Z.even below).
    + rewrite Hdiv. split; lra.
    + rewrite Hdiv, inject_Z_plus. change (inject_Z 1) with 1. split; lra.
  - rewrite Hdiv. split; lra.
  - rewrite Hdiv, inject_Z_plus. change (inject_Z 1) with 1. split; lra.
Qed.

(** A tie goes to the even hundredth, and an amount in whole hundredths is
    kept. *)
Example round2_ties :
  Py.round2 (1 # 8) = 12 # 100
  /\ Py.round2 (3 # 8) = 38 # 100
  /\ Py.round2 378 = 37800 # 100.
Proof. repeat split. Qed.

End Totals.

(** ** Bill numbers *)

Section BillNumbers.
Import Routes.

(** The candidate of the [n]-th round. *)
Let candidate (env : Env) (n : nat) : string :=
  bill_number_candidate (now env) (random_chars env n).

Lemma find_bill_by_number_None (n : string) (db : DB) :
  find_bill_by_number n db = None <->
  forall id b, bills db !! id = Some b -> Bill.bill_number b <> n.
Proof.
  unfold find_bill_by_number. split.
  - intros Hnone id b Hb Heq.
    assert (Hin : In (id, b) (map_to_list (bills db))).
    { apply list_elem_of_In, elem_of_map_to_list. exact Hb. }
    pose proof (find_none _ _ Hnone _ Hin) as Hf. simpl in Hf.
    rewrite Heq, String.eqb_refl in Hf. discriminate.
  - intros Hall.
    destruct (find _ (map_to_list (bills db))) as [[id b]|] eqn:E; [|reflexivity].
    apply find_some in E as [Hin Heq]. simpl in Heq.
    apply String.eqb_eq in Heq.
    apply list_elem_of_In, elem_of_map_to_list in Hin.
    exfalso. exact (Hall id b Hin Heq).
Qed.

Lemma generate_first_free env db (k : nat) :
  forall (a fuel : nat),
    (forall j, (j < k)%nat -> find_bill_by_number (candidate env (a + j)) db <> None) ->
    find_bill_by_number (candidate env (a + k)) db = None ->
    generate_unique_bill_number fuel env a db =
      if decide (k < fuel)%nat then Some (candidate env (a + k)) else None.
Proof.
  induction k as [|k IH]; intros a fuel Htaken Hfree.
  - destruct fuel as [|fuel]; [reflexivity|].
    cbn [generate_unique_bill_number]. rewrite Nat.add_0_r in Hfree.
    unfold candidate in Hfree. rewrite Hfree.
    rewrite Nat.add_0_r. destruct (decide (0 < S fuel)%nat); [reflexivity|lia].
  - destruct fuel as [|fuel]; [reflexivity|].
    cbn [generate_unique_bill_number].
    pose proof (Htaken 0%nat ltac:(lia)) as H0. rewrite Nat.add_0_r in H0.
    unfold candidate in H0.
    destruct (find_bill_by_number
                (bill_number_candidate (now env) (random_chars env a)) db) eqn:E;
      [|congruence].
    rewrite (IH (S a) fuel).
    + replace (S a + k)%nat with (a + S k)%nat by lia.
      destruct (decide (k < fuel)%nat), (decide (S k < S fuel)%nat);
        try reflexivity; lia.
    + intros j Hj. replace (S a + j)%nat with (a + S j)%nat by lia.
      apply Htaken. lia.
    + replace (S a + k)%nat with (a + S k)%nat by lia. exact Hfree.
Qed.

Lemma generate_all_taken (fuel a : nat) :
  generate_unique_bill_number fuel Sample.env a Sample.taken = None.
Proof.
  revert a. induction fuel as [|fuel IH]; intros a; [reflexivity|].
  cbn [generate_unique_bill_number].
  change (random_chars Sample.env a) with "ABCDEFGH".
  replace (find_bill_by_number (bill_number_candidate (now Sample.env) "ABCDEFGH")
             Sample.taken)
    with (Some (1, Sample.bill "BT-261104-ABCDEFGH" 0 0))
    by (vm_compute; reflexivity).
  apply IH.
Qed.

(** C9, as the claim has it, fails: no number of rounds is enough for the
    loop to end when every candidate drawn is the number of a stored
    bill. *)
Lemma generation_has_no_cap :
  ~ exists cap : nat,
      generate_unique_bill_number cap Sample.env 0 Sample.taken <> None.
Proof. intros [cap H]. apply H. apply generate_all_taken. Qed.

(** C9, amended.  The generator draws date-prefixed random candidates
    until one is the number of no stored bill and returns that one: when
    the first [k] candidates are taken and the next one is free, it
    returns after [k + 1] rounds and not before.  Nothing bounds [k]. *)
Theorem generate_unique_bill_number_retries env db (k fuel : nat) :
  (forall j, (j < k)%nat ->
     find_bill_by_number
       (bill_number_candidate (now env) (random_chars env j)) db <> None) ->
  find_bill_by_number
    (bill_number_candidate (now env) (random_chars env k)) db = None ->
  let number :=
    "BT-" ++ Py.last_chars 2 (Py.str (year (now env)))
          ++ Py.zfill 2 (Py.str (month (now env)))
          ++ Py.zfill 2 (Py.str (day (now env)))
          ++ "-" ++ random_chars env k in
  ((k < fuel)%nat -> generate_unique_bill_number fuel env 0 db = Some number)
  /\ ((fuel <= k)%nat -> generate_unique_bill_number fuel env 0 db = None)
  /\ (forall id b, bills db !! id = Some b -> Bill.bill_number b <> number).
Proof.
  intros Htaken Hfree number.
  pose proof (generate_first_free env db k 0 fuel Htaken Hfree) as Hgen.
  cbn [Nat.add] in Hgen. split; [|split].
  - intros Hk. rewrite Hgen. destruct (decide (k < fuel)%nat); [reflexivity|lia].
  - intros Hk. rewrite Hgen. destruct (decide (k < fuel)%nat); [lia|reflexivity].
  - apply find_bill_by_number_None. exact Hfree.
Qed.

Lemma generate_unique_bill_number_retries_witness :
  generate_unique_bill_number 2 Sample.env_second_draw 0 Sample.taken
  = Some "BT-261104-ZYXWVUT2"
  /\ generate_unique_bill_number 1 Sample.env_second_draw 0 Sample.taken = None.
Proof.
  assert (Htaken : forall j, (j < 1)%nat ->
            find_bill_by_number
              (bill_number_candidate (now Sample.env_second_draw)
                 (random_chars Sample.env_second_draw j)) Sample.taken <> None).
  { intros j Hj. destruct j as [|j]; [vm_compute; discriminate|lia]. }
  assert (Hfree : find_bill_by_number
                    (bill_number_candidate (now Sample.env_second_draw)
                       (random_chars Sample.env_second_draw 1)) Sample.taken = None).
  { vm_compute. reflexivity. }
  split.
  - destruct (generate_unique_bill_number_retries Sample.env_second_draw Sample.taken
                1 2 Htaken Hfree) as (Hsome & _ & _).
    apply Hsome. lia.
  - destruct (generate_unique_bill_number_retries Sample.env_second_draw Sample.taken
                1 1 Htaken Hfree) as (_ & Hnone & _).
    apply Hnone. lia.
Defined.

End BillNumbers.

(** ** Item status transitions *)

Section Items.
Import Routes.

Lemma commit_ok env n (s : Session.t) :
  commit_raises env n = None ->
  Session.not_null_ok (Session.working s) = true ->
  Session.commit env n s = inr (Session.mk (Session.working s) (Session.working s)).
Proof. intros Hc Hn. unfold Session.commit. rewrite Hc, Hn. reflexivity. Qed.

Lemma find_item_Some (item_id : Z) (db : DB) (item : BillItem.t) :
  find_item item_id db = Some item ->
  BillItem.id item = item_id /\ item ∈ bill_items db.
Proof.
  unfold find_item. intros H. apply find_some in H as [Hin Heq].
  split; [apply Z.eqb_eq, Heq | apply list_elem_of_In, Hin].
Qed.

(** Looking a row up after the rows with key [item_id] were rewritten by
    a function that keeps the key. *)
Lemma find_map_at (f : BillItem.t -> BillItem.t) (item_id j : Z) (l : list BillItem.t) :
  (forall it, BillItem.id (f it) = BillItem.id it) ->
  find (fun it => Z.eqb (BillItem.id it) j)
       (map (fun it => if Z.eqb (BillItem.id it) item_id then f it else it) l)
  = (if Z.eqb j item_id then f else (fun it => it))
      <$> find (fun it => Z.eqb (BillItem.id it) j) l.
Proof.
  intros Hf. induction l as [|it l IH]; [reflexivity|].
  cbn [map find].
  destruct (Z.eqb_spec (BillItem.id it) item_id) as [Hid|Hid].
  - rewrite Hf. destruct (Z.eqb_spec (BillItem.id it) j) as [Hj|Hj].
    + assert (Z.eqb j item_id = true) as -> by (apply Z.eqb_eq; congruence).
      reflexivity.
    + exact IH.
  - destruct (Z.eqb_spec (BillItem.id it) j) as [Hj|Hj].
    + assert (Z.eqb j item_id = false) as -> by (apply Z.eqb_neq; congruence).
      reflexivity.
    + exact IH.
Qed.

Lemma find_filter_ne (item_id j : Z) (l : list BillItem.t) :
  find (fun it => Z.eqb (BillItem.id it) j)
       (filter (fun it => BillItem.id it <> item_id) l)
  = if Z.eqb j item_id then None
    else find (fun it => Z.eqb (BillItem.id it) j) l.
Proof.
  induction l as [|it l IH]; [destruct (Z.eqb j item_id); reflexivity|].
  rewrite filter_cons. cbn [find].
  destruct (decide (BillItem.id it <> item_id)) as [Hid|Hid].
  - cbn [find]. destruct (Z.eqb_spec (BillItem.id it) j) as [Hj|Hj].
    + assert (Z.eqb j item_id = false) as -> by (apply Z.eqb_neq; congruence).
      reflexivity.
    + exact IH.
  - apply dec_stable in Hid.
    destruct (Z.eqb_spec (BillItem.id it) j) as [Hj|Hj].
    + assert (Z.eqb j item_id = true) as Hji by (apply Z.eqb_eq; congruence).
      rewrite Hji in IH |- *. exact IH.
    + exact IH.
Qed.



(** C10.  When the item exists but belongs to another bill than the one
    named, [complete_bill_item] and [void_bill_item] both answer 400
    'Item does not belong to this bill' and store nothing: items, bills
    and products stay as they were. *)
Theorem item_of_other_bill_rejected env (bill_id item_id : Z) (db : DB)
    (bill : Bill.t) (item : BillItem.t) :
  bills db !! bill_id = Some bill ->
  find_item item_id db = Some item ->
  BillItem.bill_id item <> bill_id ->
  complete_bill_item env bill_id item_id db
    = ((Error "Item does not belong to this bill", 400), db)
  /\ void_bill_item env bill_id item_id db
    = ((Error "Item does not belong to this bill", 400), db).
Proof.
  intros Hbill Hitem Hown. apply Z.eqb_neq in Hown.
  unfold complete_bill_item, void_bill_item.
  cbn [Session.start Session.working Session.stored].
  rewrite Hbill, Hitem, Hown. split; reflexivity.
Qed.

Lemma item_of_other_bill_rejected_witness :
  complete_bill_item Sample.env 2 1 Sample.unpaid
    = ((Error "Item does not belong to this bill", 400), Sample.unpaid)
  /\ void_bill_item Sample.env 2 1 Sample.unpaid
    = ((Error "Item does not belong to this bill", 400), Sample.unpaid).
Proof.
  apply (item_of_other_bill_rejected Sample.env 2 1 Sample.unpaid
           (Bill.calculate_totals (Sample.bill "BT-261104-AAAAAAA2" 0 0)
              [Sample.item 3 2 1 "pending"])
           (Sample.item 1 1 3 "pending")).
  - vm_compute. reflexivity.
  - vm_compute. reflexivity.
  - vm_compute. discriminate.
Defined.

Lemma bill_items_of_delete_item (bill_id item_id : Z) (db : DB) (it : BillItem.t) :
  it ∈ bill_items_of bill_id (Session.delete_item item_id db) <->
  it ∈ bill_items_of bill_id db /\ BillItem.id it <> item_id.
Proof.
  unfold bill_items_of, Session.delete_item. session_simpl.
  rewrite !list_elem_of_filter. tauto.
Qed.

(** What [void_bill_item] does once the item is found on the bill. *)
Lemma void_bill_item_runs env (bill_id item_id : Z) (db : DB)
    (bill : Bill.t) (item : BillItem.t) :
  bills db !! bill_id = Some bill ->
  find_item item_id db = Some item ->
  BillItem.bill_id item = bill_id ->
  commit_raises env 0 = None ->
  Session.not_null_ok db = true ->
  let ps :=
    if String.eqb (BillItem.item_status item) "completed" then products db
    else add_stock (BillItem.product_id item) (BillItem.quantity item) (products db) in
  let remaining := bill_items_of bill_id (Session.delete_item item_id db) in
  let bill' := Bill.calculate_totals bill remaining in
  void_bill_item env bill_id item_id db
  = ((ItemVoided bill' remaining, 200),
     set_bill bill_id bill' (Session.delete_item item_id (set_products ps db))).
Proof.
  intros Hbill Hitem Hown Hc Hnn. cbn zeta. unfold void_bill_item.
  session_simpl. rewrite Hbill, Hitem, Hown, Z.eqb_refl. cbn [negb].
  destruct (String.eqb (BillItem.item_status item) "completed");
    cbn [negb]; session_simpl; rewrite commit_ok by assumption;
    session_simpl; destruct db; reflexivity.
Qed.



(** C7, as the claim has it, fails: voiding the completed item 2 of
    bill 1 is answered with 200 and the item is gone afterwards. *)
Lemma void_completed_item_succeeds :
  let out := void_bill_item Sample.env 1 2 Sample.unpaid in
  find_item 2 Sample.unpaid = Some (Sample.item 2 1 2 "completed")
  /\ snd (fst out) = 200
  /\ find_item 2 (snd out) = None
  /\ snd out <> Sample.unpaid.
Proof.
  cbn zeta. split; [reflexivity|]. split; [reflexivity|].
  split; [vm_compute; reflexivity|].
  intros Heq. apply (f_equal (find_item 2)) in Heq. vm_compute in Heq. discriminate.
Qed.

(** C7, amended.  Voiding an item of the bill whose status is 'completed'
    is not refused: the answer is 200, product stock stays as it was,
    the item is removed and the bill is stored with the totals of
    [calculate_totals] over the items that remain. *)
Theorem void_completed_item env (bill_id item_id : Z) (db : DB)
    (bill : Bill.t) (item : BillItem.t) :
  bills db !! bill_id = Some bill ->
  find_item item_id db = Some item ->
  BillItem.bill_id item = bill_id ->
  BillItem.item_status item = "completed" ->
  commit_raises env 0 = None ->
  Session.not_null_ok db = true ->
  let out := void_bill_item env bill_id item_id db in
  let db' := snd out in
  let remaining := bill_items_of bill_id db' in
  let bill' := Bill.calculate_totals bill remaining in
  fst out = (ItemVoided bill' remaining, 200)
  /\ products db' = products db
  /\ find_item item_id db' = None
  /\ (forall j, j <> item_id -> find_item j db' = find_item j db)
  /\ (forall it, it ∈ remaining <->
                 it ∈ bill_items_of bill_id db /\ BillItem.id it <> item_id)
  /\ bills db' !! bill_id = Some bill'.
Proof.
  intros Hbill Hitem Hown Hst Hc Hnn. cbn zeta.
  rewrite (void_bill_item_runs env bill_id item_id db bill item) by assumption.
  rewrite Hst. change (String.eqb "completed" "completed") with true. cbn iota.
  session_simpl.
  assert (Hrem : bill_items_of bill_id
                   (set_bill bill_id
                      (Bill.calculate_totals bill
                         (bill_items_of bill_id (Session.delete_item item_id db)))
                      (Session.delete_item item_id (set_products (products db) db)))
                 = bill_items_of bill_id (Session.delete_item item_id db))
    by reflexivity.
  rewrite Hrem.
  split; [reflexivity|]. split; [reflexivity|].
  split; [|split; [|split]].
  - unfold find_item. session_simpl. rewrite find_filter_ne, Z.eqb_refl. reflexivity.
  - intros j Hj. unfold find_item. session_simpl. rewrite find_filter_ne.
    apply Z.eqb_neq in Hj. rewrite Hj. reflexivity.
  - intros it. apply bill_items_of_delete_item.
  - apply lookup_insert_eq.
Qed.

Lemma void_completed_item_witness :
  products (snd (void_bill_item Sample.env 1 2 Sample.unpaid))
  = products Sample.unpaid.
Proof.
  apply (void_completed_item Sample.env 1 2 Sample.unpaid
           (Bill.calculate_totals (Sample.bill "BT-261104-AAAAAAA1" 0 0)
              [Sample.item 1 1 3 "pending"; Sample.item 2 1 2 "completed"])
           (Sample.item 2 1 2 "completed"));
    vm_compute; reflexivity.
Defined.

End Items.

(** ** Bill creation *)

Section Creation.
Import Routes.

Lemma add_items_app {stored : gmap Z Product.t} (l1 l2 : list ItemData) :
  forall ps its added,
    add_items stored (l1 ++ l2) ps its added
    = match add_items stored l1 ps its added with
      | Finished ps' its' added' => add_items stored l2 ps' its' added'
      | r => r
      end.
Proof.
  induction l1 as [|line l1 IH]; intros ps its added; [reflexivity|].
  cbn [app add_items].
  destruct (productId line) as [pid|]; [|reflexivity].
  destruct (ps !! pid) as [p|]; [|reflexivity].
  destruct (quantity line) as [q|]; [|reflexivity].
  destruct (q <=? 0)%Z; [reflexivity|].
  destruct (Product.quantity p <? q)%Z; [reflexivity|].
  apply IH.
Qed.

Lemma with_quantity_same (p : Product.t) :
  Product.with_quantity (Product.quantity p - 0) p = p.
Proof. destruct p. unfold Product.with_quantity. cbn. f_equal. lia. Qed.

(** The loop takes from each product what the lines ask of it. *)
Lemma add_items_stock {stored : gmap Z Product.t} (lines : list ItemData) :
  forall ps its added ps' its' added',
    add_items stored lines ps its added = Finished ps' its' added' ->
    forall pid,
      ps' !! pid
      = (fun p => Product.with_quantity (Product.quantity p - requested pid lines) p)
          <$> ps !! pid.
Proof.
  induction lines as [|line lines IH]; intros ps its added ps' its' added' Hrun pid.
  - cbn in Hrun. injection Hrun as <- _ _. cbn [requested fold_right].
    destruct (ps !! pid) as [p|]; [|reflexivity].
    cbn. rewrite with_quantity_same. reflexivity.
  - cbn [add_items] in Hrun. cbn [requested fold_right].
    fold (requested pid lines).
    destruct (productId line) as [pid0|]; [|discriminate].
    destruct (ps !! pid0) as [p0|] eqn:Hp0; [|discriminate].
    destruct (quantity line) as [q|]; [|discriminate].
    destruct (q <=? 0)%Z; [discriminate|].
    destruct (Product.quantity p0 <? q)%Z; [discriminate|].
    rewrite (IH _ _ _ _ _ _ Hrun pid).
    case_bool_decide as Hpid.
    + subst pid0. rewrite lookup_insert_eq, Hp0. cbn.
      unfold Product.with_quantity. cbn. do 2 f_equal. lia.
    + rewrite lookup_insert_ne by exact Hpid. reflexivity.
Qed.

(** A product the lines ask something of is never left below zero. *)
Lemma add_items_nonneg {stored : gmap Z Product.t} (lines : list ItemData) :
  forall ps its added ps' its' added',
    add_items stored lines ps its added = Finished ps' its' added' ->
    forall pid p p',
      ps !! pid = Some p -> ps' !! pid = Some p' ->
      0 <= Product.quantity p \/ 0 < requested pid lines ->
      0 <= Product.quantity p'.
Proof.
  induction lines as [|line lines IH];
    intros ps its added ps' its' added' Hrun pid p p' Hp Hp' Hor.
  - cbn in Hrun. injection Hrun as <- _ _. cbn in Hor.
    assert (p' = p) as -> by congruence. lia.
  - cbn [add_items] in Hrun. cbn [requested fold_right] in Hor.
    fold (requested pid lines) in Hor.
    destruct (productId line) as [pid0|]; [|discriminate].
    destruct (ps !! pid0) as [p0|] eqn:Hp0; [|discriminate].
    destruct (quantity line) as [q|]; [|discriminate].
    destruct (Z.leb_spec q 0); [discriminate|].
    destruct (Z.ltb_spec (Product.quantity p0) q); [discriminate|].
    case_bool_decide as Hpid.
    + subst pid0.
      apply (IH _ _ _ _ _ _ Hrun pid
               (Product.with_quantity (Product.quantity p0 - q) p0) p');
        [apply lookup_insert_eq | exact Hp' | left; cbn; lia].
    + apply (IH _ _ _ _ _ _ Hrun pid p p');
        [rewrite lookup_insert_ne by exact Hpid; exact Hp | exact Hp' | exact Hor].
Qed.



(** Every item the loop appends stores price times quantity as its line
    total and is pending. *)
Lemma add_items_line_totals {stored : gmap Z Product.t} (lines : list ItemData) :
  forall ps its added ps' its' added',
    add_items stored lines ps its added = Finished ps' its' added' ->
    Forall line_total_ok its -> Forall line_total_ok its'.
Proof.
  induction lines as [|line lines IH]; intros ps its added ps' its' added' Hrun Hok.
  - cbn in Hrun. injection Hrun as _ <- _. exact Hok.
  - cbn [add_items] in Hrun.
    destruct (productId line) as [pid0|]; [|discriminate].
    destruct (ps !! pid0) as [p0|]; [|discriminate].
    destruct (quantity line) as [q|]; [|discriminate].
    destruct (q <=? 0)%Z; [discriminate|].
    destruct (Product.quantity p0 <? q)%Z; [discriminate|].
    apply (IH _ _ _ _ _ _ Hrun).
    apply Forall_app. split; [exact Hok|].
    constructor; [reflexivity|constructor].
Qed.

Lemma add_items_returned {stored : gmap Z Product.t} (lines : list ItemData) :
  forall ps its added r,
    add_items stored lines ps its added = Returned r -> exists e c, r = (Error e, c).
Proof.
  induction lines as [|line lines IH]; intros ps its added r Hrun; [discriminate|].
  cbn [add_items] in Hrun.
  destruct (productId line) as [pid0|]; [|discriminate].
  destruct (ps !! pid0) as [p0|]; [|injection Hrun as <-; eauto].
  destruct (quantity line) as [q|]; [|discriminate].
  destruct (q <=? 0)%Z; [injection Hrun as <-; eauto|].
  destruct (Product.quantity p0 <? q)%Z; [injection Hrun as <-; eauto|].
  exact (IH _ _ _ _ Hrun).
Qed.

Lemma commit_inr env n (s s' : Session.t) :
  Session.commit env n s = inr s' ->
  s' = Session.mk (Session.working s) (Session.working s)
  /\ commit_raises env n = None
  /\ Session.not_null_ok (Session.working s) = true.
Proof.
  unfold Session.commit. intros H.
  destruct (commit_raises env n); [discriminate|].
  destruct (Session.not_null_ok (Session.working s)); [|discriminate].
  injection H as <-. auto.
Qed.

Lemma commit_payment_inr env n payment_id (s s' : Session.t) :
  Session.commit_payment env n payment_id s = inr s' ->
  s' = Session.mk (Session.working s) (Session.working s)
  /\ commit_raises env n = None
  /\ Session.not_null_ok (Session.working s) = true.
Proof.
  unfold Session.commit_payment.
  destruct (existsb _ _); [discriminate|]. apply commit_inr.
Qed.

Lemma commit_payment_ok env n payment_id (s : Session.t) :
  (forall p, p ∈ payments (Session.stored s) -> Payment.payment_id p <> payment_id) ->
  commit_raises env n = None ->
  Session.not_null_ok (Session.working s) = true ->
  Session.commit_payment env n payment_id s
  = inr (Session.mk (Session.working s) (Session.working s)).
Proof.
  intros Hfree Hc Hnn. unfold Session.commit_payment.
  destruct (existsb _ _) eqn:E; [|apply commit_ok; assumption].
  apply existsb_exists in E as (p & Hin & Heq).
  apply String.eqb_eq in Heq.
  destruct (Hfree p (proj2 (list_elem_of_In _ _) Hin) Heq).
Qed.

Lemma not_null_ok_app (db : DB) (p : Payment.t) :
  Session.not_null_ok db = true ->
  is_Some (Payment.bill_id p) ->
  Session.not_null_ok (set_payments (payments db ++ [p]) db) = true.
Proof.
  unfold Session.not_null_ok. session_simpl. intros Hdb Hp.
  rewrite forallb_app, Hdb. cbn. rewrite bool_decide_eq_true_2 by exact Hp.
  reflexivity.
Qed.







(** As long as the commit that records the payment does not raise, an
    error answer of [create_bill] leaves the stored tables as they were:
    the empty request, the unknown product, the bad quantity, the
    insufficient stock, the missing key and the failed first commit are
    all rolled back.  The payment commit does not raise when the
    connection holds and no stored payment carries the payment id of the
    new bill. *)
Lemma create_bill_error_rolls_back env fuel data db e c db' :
  commit_raises env 1 = None ->
  (forall number p, generate_unique_bill_number fuel env 0 db = Some number ->
                    p ∈ payments db -> Payment.payment_id p <> "PAY-" ++ number) ->
  create_bill env fuel data db = Some ((Error e, c), db') ->
  db' = db.
Proof.
  intros Hc1 Hfree. unfold create_bill. session_simpl.
  destruct (items data) as [|l0 ls]; [congruence|].
  destruct (generate_unique_bill_number fuel env 0 db) as [number|] eqn:Hgen;
    [|discriminate].
  destruct (add_items (products db) (l0 :: ls) (products db) [] [])
    as [r|e0|ps its added0] eqn:Hrun;
    [congruence|congruence|].
  destruct (Session.commit env 0 _) as [e0|s0] eqn:Hc0; [congruence|].
  apply commit_inr in Hc0 as (-> & _ & Hnn).
  destruct (Py.gt _ 0); [|discriminate].
  rewrite commit_payment_ok; [discriminate| |exact Hc1|].
  - session_simpl. intros p Hp.
    exact (Hfree number p eq_refl Hp).
  - session_simpl. cbn [Session.working Session.update Session.add_bill snd] in Hnn.
    apply (not_null_ok_app
             (mkDB ps _ _ (payments db))); [exact Hnn|eauto].
Qed.

(** C3 fails when the commit that records the payment raises: the first
    commit has stored the bill, its item and the lowered stock, the
    rollback of the handler undoes the payment only, and the request is
    answered 400. *)
Theorem create_bill_payment_failure_keeps_bill :
  exists e db',
    create_bill Sample.env_payment_fails 1 Sample.four_lamps Sample.shop
    = Some ((Error e, 400), db')
    /\ Product.quantity <$> products Sample.shop !! 1 = Some 10
    /\ Product.quantity <$> products db' !! 1 = Some 6
    /\ Bill.bill_number <$> bills db' !! 1 = Some "BT-261104-ABCDEFGH"
    /\ map BillItem.quantity (bill_items_of 1 db') = [4]
    /\ payments db' = []
    /\ db' <> Sample.shop.
Proof.
  do 2 eexists. split; [vm_compute; reflexivity|].
  repeat split; try (vm_compute; reflexivity).
  intros Heq. apply (f_equal bill_items) in Heq. discriminate.
Qed.

End Creation.

(** ** Cancellation *)

Section Cancellation.
Import Routes.

Lemma with_quantity_plus_0 (p : Product.t) :
  Product.with_quantity (Product.quantity p + 0) p = p.
Proof. destruct p. unfold Product.with_quantity. cbn. f_equal. lia. Qed.

(** The first loop of [cancel_bill] gives each product back what the
    items that are not completed hold of it. *)
Lemma restore_stock_lookup (its : list BillItem.t) :
  forall (ps : gmap Z Product.t) (pid : Z),
    restore_stock its ps !! pid
    = (fun p => Product.with_quantity (Product.quantity p + restocked pid its) p)
        <$> ps !! pid.
Proof.
  unfold restore_stock.
  induction its as [|it its IH]; intros ps pid.
  - cbn. destruct (ps !! pid) as [p|]; [|reflexivity].
    cbn. rewrite with_quantity_plus_0. reflexivity.
  - cbn [fold_left restocked fold_right]. fold (restocked pid its).
    rewrite IH.
    destruct (String.eqb_spec (BillItem.item_status it) "completed") as [Hst|Hst];
      cbn [negb].
    + rewrite bool_decide_eq_false_2 by tauto. reflexivity.
    + unfold add_stock.
      destruct (decide (BillItem.product_id it = pid)) as [Hpid|Hpid].
      * rewrite bool_decide_eq_true_2 by tauto. subst pid.
        destruct (ps !! BillItem.product_id it) as [p|] eqn:Hp.
        -- rewrite lookup_insert_eq. cbn. unfold Product.with_quantity. cbn.
           do 2 f_equal. lia.
        -- rewrite Hp. reflexivity.
      * rewrite bool_decide_eq_false_2 by tauto.
        destruct (ps !! BillItem.product_id it) as [p|]; [|reflexivity].
        rewrite lookup_insert_ne by exact Hpid. reflexivity.
Qed.

(** Cancelling bill 1 of the unpaid sample, a pending item of 3 and a
    completed item of 2, gives back 3 lamps and removes the bill with
    both items; the item of bill 2 stays. *)
Example cancel_unpaid_bill_restores_three :
  let out := cancel_bill Sample.env 1 Sample.unpaid in
  fst out = (BillCancelled, 200)
  /\ Product.quantity <$> products Sample.unpaid !! 1 = Some 4
  /\ Product.quantity <$> products (snd out) !! 1 = Some 7
  /\ bills (snd out) !! 1 = None
  /\ map BillItem.id (bill_items (snd out)) = [3].
Proof. cbn zeta. repeat split; vm_compute; reflexivity. Qed.

Lemma not_null_ok_false (db : DB) (p : Payment.t) :
  p ∈ payments db -> Payment.bill_id p = None -> Session.not_null_ok db = false.
Proof.
  intros Hin Hnull. unfold Session.not_null_ok.
  destruct (forallb _ (payments db)) eqn:E; [|reflexivity].
  rewrite forallb_forall in E.
  specialize (E p (proj1 (list_elem_of_In _ _) Hin)).
  rewrite Hnull in E. apply bool_decide_eq_true_1 in E.
  destruct E as [x Hx]. discriminate.
Qed.

(** C5 fails on a bill that has a payment.  Deleting the bill detaches
    its payments, whose [bill_id] must not be NULL, so the commit raises;
    the handler rolls back and answers 400: no stock is given back, no
    payment is marked refunded and the bill with its items stays. *)
Theorem cancel_bill_with_payment_fails env (bill_id : Z) (db : DB)
    (bill : Bill.t) (payment : Payment.t) :
  bills db !! bill_id = Some bill ->
  payment ∈ payments db ->
  Payment.bill_id payment = Some bill_id ->
  commit_raises env 0 = None ->
  cancel_bill env bill_id db = ((Error Session.integrity_error, 400), db).
Proof.
  intros Hbill Hin Hown Hc. unfold cancel_bill. session_simpl.
  rewrite Hbill. unfold Session.commit. rewrite Hc. session_simpl.
  rewrite (not_null_ok_false _
             (Payment.mk (Payment.id payment) None (Payment.payment_id payment)
                (Payment.amount payment) (Payment.method payment) "refunded"));
    [reflexivity| |reflexivity].
  unfold Session.delete_bill, refund_payments. session_simpl.
  apply list_elem_of_In, in_map_iff.
  exists (Payment.with_status "refunded" payment). split.
  - cbn. rewrite bool_decide_eq_true_2 by exact Hown. reflexivity.
  - apply in_map_iff. exists payment. split.
    + rewrite bool_decide_eq_true_2 by exact Hown. reflexivity.
    + apply list_elem_of_In. exact Hin.
Qed.

Lemma cancel_bill_with_payment_fails_witness :
  cancel_bill Sample.env 1 Sample.paid
  = ((Error Session.integrity_error, 400), Sample.paid).
Proof.
  apply (cancel_bill_with_payment_fails Sample.env 1 Sample.paid
           (Bill.calculate_totals (Sample.bill "BT-261104-AAAAAAA1" 0 500)
              [Sample.item 1 1 3 "pending"; Sample.item 2 1 2 "completed"])
           (Payment.mk 1 (Some 1) "PAY-BT-261104-AAAAAAA1" 500 "cash" "completed")).
  - vm_compute. reflexivity.
  - apply list_elem_of_here.
  - reflexivity.
  - reflexivity.
Defined.

End Cancellation.

(** ** Completing all items of a bill *)

Section CompleteAll.
Import Routes Handlers.

(** The rewrite of the loop of [complete_all_bill_items]. *)
Let complete_pending (bill_id : Z) (it : BillItem.t) : BillItem.t :=
  if bool_decide (BillItem.bill_id it = bill_id /\ BillItem.item_status it = "pending")
  then BillItem.with_status "completed" it else it.

Lemma complete_pending_not_pending (bill_id : Z) (it : BillItem.t) :
  ~ (BillItem.bill_id (complete_pending bill_id it) = bill_id
     /\ BillItem.item_status (complete_pending bill_id it) = "pending").
Proof.
  unfold complete_pending. case_bool_decide as H; [|exact H].
  cbn. intros [_ Hst]. discriminate.
Qed.

Lemma pending_items_after (bill_id : Z) (l : list BillItem.t) :
  filter (fun it => BillItem.bill_id it = bill_id /\ BillItem.item_status it = "pending")
         (map (complete_pending bill_id) l) = [].
Proof.
  induction l as [|it l IH]; [reflexivity|].
  cbn [map]. rewrite filter_cons.
  destruct (decide _) as [H|_]; [|exact IH].
  exfalso. exact (complete_pending_not_pending bill_id it H).
Qed.

Lemma bill_items_of_after (bill_id b : Z) (l : list BillItem.t) :
  b <> bill_id ->
  filter (fun it => BillItem.bill_id it = b) (map (complete_pending bill_id) l)
  = filter (fun it => BillItem.bill_id it = b) l.
Proof.
  intros Hb. induction l as [|it l IH]; [reflexivity|].
  cbn [map]. rewrite !filter_cons, IH.
  assert (Hown : BillItem.bill_id (complete_pending bill_id it) = BillItem.bill_id it).
  { unfold complete_pending. case_bool_decide; reflexivity. }
  rewrite Hown. destruct (decide (BillItem.bill_id it = b)) as [Heq|_]; [|reflexivity].
  unfold complete_pending. rewrite bool_decide_eq_false_2; [reflexivity|].
  intros [Hid _]. congruence.
Qed.

Lemma complete_all_runs env (bill_id : Z) (db : DB) (bill : Bill.t) :
  bills db !! bill_id = Some bill ->
  pending_items bill_id db <> [] ->
  commit_raises env 0 = None ->
  Session.not_null_ok db = true ->
  complete_all_bill_items env bill_id db
  = ((AllCompleted (length (pending_items bill_id db)), 200),
     set_bill_items (map (complete_pending bill_id) (bill_items db)) db).
Proof.
  intros Hbill Hpending Hc Hnn. unfold complete_all_bill_items. session_simpl.
  rewrite Hbill. destruct (pending_items bill_id db) as [|it its]; [congruence|].
  unfold Session.commit. rewrite Hc. session_simpl.
  change (Session.not_null_ok (set_bill_items _ db)) with (Session.not_null_ok db).
  rewrite Hnn. reflexivity.
Qed.

(** X1.  When the bill has pending items and the commit goes through,
    [complete_all_bill_items] answers 200 with the number of items that
    were pending, leaves no pending item on the bill, keeps every item row
    in place, and changes neither the products nor the items of any other
    bill. *)
Theorem complete_all_bill_items_completes env (bill_id : Z) (db : DB) (bill : Bill.t) :
  bills db !! bill_id = Some bill ->
  pending_items bill_id db <> [] ->
  commit_raises env 0 = None ->
  Session.not_null_ok db = true ->
  let out := complete_all_bill_items env bill_id db in
  fst out = (AllCompleted (length (pending_items bill_id db)), 200)
  /\ pending_items bill_id (snd out) = []
  /\ map BillItem.id (bill_items (snd out)) = map BillItem.id (bill_items db)
  /\ map BillItem.quantity (bill_items (snd out)) = map BillItem.quantity (bill_items db)
  /\ products (snd out) = products db
  /\ (forall b, b <> bill_id -> bill_items_of b (snd out) = bill_items_of b db).
Proof.
  intros Hbill Hpending Hc Hnn. cbn zeta.
  rewrite (complete_all_runs env bill_id db bill) by assumption. session_simpl.
  split; [reflexivity|]. split; [apply pending_items_after|].
  split; [|split; [|split; [reflexivity|]]].
  - rewrite map_map. apply map_ext. intros it. unfold complete_pending.
    case_bool_decide; reflexivity.
  - rewrite map_map. apply map_ext. intros it. unfold complete_pending.
    case_bool_decide; reflexivity.
  - intros b Hb. apply bill_items_of_after. exact Hb.
Qed.

Lemma complete_all_bill_items_completes_witness :
  fst (complete_all_bill_items Sample.env 1 Sample.unpaid) = (AllCompleted 1, 200).
Proof.
  apply (complete_all_bill_items_completes Sample.env 1 Sample.unpaid
           (Bill.calculate_totals (Sample.bill "BT-261104-AAAAAAA1" 0 0)
              [Sample.item 1 1 3 "pending"; Sample.item 2 1 2 "completed"]));
    vm_compute; try reflexivity; discriminate.
Defined.

(** X2.  Once [complete_all_bill_items] has gone through, the list of
    pending items of the bill is empty and a second call is refused with
    400 'No pending items found in this bill', storing nothing. *)
Theorem complete_all_bill_items_twice env env' (bill_id : Z) (db : DB) (bill : Bill.t) :
  bills db !! bill_id = Some bill ->
  pending_items bill_id db <> [] ->
  commit_raises env 0 = None ->
  Session.not_null_ok db = true ->
  let db' := snd (complete_all_bill_items env bill_id db) in
  get_pending_bill_items bill_id db'
    = (PendingItems bill_id (Bill.bill_number bill) [], 200)
  /\ complete_all_bill_items env' bill_id db'
    = ((Failed "No pending items found in this bill", 400), db').
Proof.
  intros Hbill Hpending Hc Hnn. cbn zeta.
  rewrite (complete_all_runs env bill_id db bill) by assumption. session_simpl.
  unfold get_pending_bill_items, complete_all_bill_items, pending_items.
  session_simpl. rewrite Hbill, pending_items_after. split; reflexivity.
Qed.

Lemma complete_all_bill_items_twice_witness :
  complete_all_bill_items Sample.env 1
    (snd (complete_all_bill_items Sample.env 1 Sample.unpaid))
  = ((Failed "No pending items found in this bill", 400),
     snd (complete_all_bill_items Sample.env 1 Sample.unpaid)).
Proof.
  apply (complete_all_bill_items_twice Sample.env Sample.env 1 Sample.unpaid
           (Bill.calculate_totals (Sample.bill "BT-261104-AAAAAAA1" 0 0)
              [Sample.item 1 1 3 "pending"; Sample.item 2 1 2 "completed"]));
    vm_compute; try reflexivity; discriminate.
Defined.

End CompleteAll.

(** ** Payment updates *)

Section PaymentUpdate.
Import Routes Handlers.

(** The bill [update_bill_payment] stores. *)
Let updated (bill : Bill.t) (data : PaymentData) (its : list BillItem.t) : Bill.t :=
  Bill.calculate_totals
    (Bill.mk (Bill.bill_number bill) (Bill.customer_name bill) (Bill.subtotal bill)
       (Bill.discount bill) (Bill.discount_type bill) (Bill.tax bill)
       (Bill.tax_type bill) (Bill.total bill)
       (default (Bill.paid_amount bill) (paidAmount data)) (Bill.change_amount bill)
       (default (Bill.payment_method bill) (paymentMethod data))
       (Bill.payment_status bill))
    its.

Lemma payment_id_free (payment_id : string) (pays : list Payment.t) :
  existsb (fun p => String.eqb (Payment.payment_id p) payment_id) pays = false <->
  forall p, p ∈ pays -> Payment.payment_id p <> payment_id.
Proof.
  split.
  - intros Hnone p Hin Heq.
    assert (existsb (fun p => String.eqb (Payment.payment_id p) payment_id) pays = true)
      as Hex; [|congruence].
    apply existsb_exists. exists p. split; [apply list_elem_of_In, Hin|].
    apply String.eqb_eq, Heq.
  - intros Hall.
    destruct (existsb _ pays) eqn:E; [|reflexivity].
    apply existsb_exists in E as (p & Hin & Heq).
    apply String.eqb_eq in Heq. apply list_elem_of_In in Hin.
    exfalso. exact (Hall p Hin Heq).
Qed.

Lemma update_bill_payment_runs env (hhmmss : string) (bill_id : Z)
    (data : PaymentData) (db : DB) (bill : Bill.t) :
  bills db !! bill_id = Some bill ->
  (forall p, p ∈ payments db ->
     Payment.payment_id p <> "PAY-" ++ Bill.bill_number bill ++ "-" ++ hhmmss) ->
  commit_raises env 0 = None ->
  Session.not_null_ok db = true ->
  let its := bill_items_of bill_id db in
  let bill' := updated bill data its in
  update_bill_payment env hhmmss bill_id data db
  = ((PaymentUpdated bill' its, 200),
     Session.add_payment bill_id ("PAY-" ++ Bill.bill_number bill ++ "-" ++ hhmmss)
       (default (Bill.paid_amount bill') (additionalAmount data))
       (Bill.payment_method bill') "completed"
       (set_bill bill_id bill' db)).
Proof.
  intros Hbill Hfree Hc Hnn. cbn zeta. unfold update_bill_payment. session_simpl.
  rewrite Hbill. unfold Session.commit_payment. session_simpl.
  cbn [Bill.calculate_totals Bill.bill_number].
  rewrite (proj2 (payment_id_free _ _) Hfree).
  unfold Session.commit. rewrite Hc. session_simpl.
  unfold Session.not_null_ok in Hnn |- *. session_simpl.
  rewrite forallb_app, Hnn. reflexivity.
Qed.

(** X3.  A payment update that goes through overwrites the paid amount
    and the method of the bill with the values sent, stores the bill with
    the totals recalculated over its items, and appends exactly one
    payment row, of status 'completed', for the additional amount sent or
    else the new paid amount.  Products, items and the other bills stay as
    they were. *)
Theorem update_bill_payment_records env (hhmmss : string) (bill_id : Z)
    (data : PaymentData) (db : DB) (bill : Bill.t) :
  bills db !! bill_id = Some bill ->
  (forall p, p ∈ payments db ->
     Payment.payment_id p <> "PAY-" ++ Bill.bill_number bill ++ "-" ++ hhmmss) ->
  commit_raises env 0 = None ->
  Session.not_null_ok db = true ->
  let out := update_bill_payment env hhmmss bill_id data db in
  let paid := default (Bill.paid_amount bill) (paidAmount data) in
  exists bill' payment,
    fst out = (PaymentUpdated bill' (bill_items_of bill_id db), 200)
    /\ bills (snd out) = <[bill_id := bill']> (bills db)
    /\ Bill.paid_amount bill' = paid
    /\ Bill.payment_method bill' = default (Bill.payment_method bill) (paymentMethod data)
    /\ Bill.calculate_totals bill' (bill_items_of bill_id db) = bill'
    /\ Bill.bill_number bill' = Bill.bill_number bill
    /\ payments (snd out) = (payments db ++ [payment])%list
    /\ Payment.bill_id payment = Some bill_id
    /\ Payment.status payment = "completed"
    /\ Payment.amount payment = default paid (additionalAmount data)
    /\ Payment.payment_id payment = "PAY-" ++ Bill.bill_number bill ++ "-" ++ hhmmss
    /\ products (snd out) = products db
    /\ bill_items (snd out) = bill_items db.
Proof.
  intros Hbill Hfree Hc Hnn. cbn zeta.
  rewrite (update_bill_payment_runs env hhmmss bill_id data db bill) by assumption.
  unfold Session.add_payment. session_simpl.
  eexists _, _. repeat split.
Qed.

Lemma update_bill_payment_records_witness :
  exists bill',
    fst (update_bill_payment Sample.env "101500" 1 (mkPayment (Some 500%Q) None None)
           Sample.unpaid)
    = (PaymentUpdated bill' (bill_items_of 1 Sample.unpaid), 200)
    /\ Bill.paid_amount bill' = 500%Q.
Proof.
  destruct (update_bill_payment_records Sample.env "101500" 1
              (mkPayment (Some 500%Q) None None) Sample.unpaid
              (Bill.calculate_totals (Sample.bill "BT-261104-AAAAAAA1" 0 0)
                 [Sample.item 1 1 3 "pending"; Sample.item 2 1 2 "completed"]))
    as (bill' & payment & Hout & _ & Hpaid & _).
  - vm_compute. reflexivity.
  - intros p Hp. vm_compute in Hp. inversion Hp.
  - reflexivity.
  - reflexivity.
  - exists bill'. split; [exact Hout | exact Hpaid].
Defined.

(** X4.  A second payment update of the same bill within the same clock
    second builds the [payment_id] of the first one again; the commit
    raises on the duplicate, the handler answers 400 and nothing of the
    second update is stored. *)
Theorem update_bill_payment_same_second env env' (hhmmss : string) (bill_id : Z)
    (data data' : PaymentData) (db : DB) (bill : Bill.t) :
  bills db !! bill_id = Some bill ->
  (forall p, p ∈ payments db ->
     Payment.payment_id p <> "PAY-" ++ Bill.bill_number bill ++ "-" ++ hhmmss) ->
  commit_raises env 0 = None ->
  Session.not_null_ok db = true ->
  let db' := snd (update_bill_payment env hhmmss bill_id data db) in
  update_bill_payment env' hhmmss bill_id data' db'
  = ((Failed Session.duplicate_error, 400), db').
Proof.
  intros Hbill Hfree Hc Hnn. cbn zeta.
  rewrite (update_bill_payment_runs env hhmmss bill_id data db bill) by assumption.
  session_simpl. unfold update_bill_payment at 1. session_simpl.
  rewrite lookup_insert_eq. unfold Session.commit_payment. session_simpl.
  cbn [Bill.calculate_totals Bill.bill_number].
  rewrite existsb_app. cbn [existsb Payment.payment_id].
  rewrite String.eqb_refl, orb_true_r. reflexivity.
Qed.

Lemma update_bill_payment_same_second_witness :
  fst (update_bill_payment Sample.env "101500" 1 (mkPayment (Some 600%Q) None None)
         (snd (update_bill_payment Sample.env "101500" 1
                 (mkPayment (Some 500%Q) None None) Sample.unpaid)))
  = (Failed Session.duplicate_error, 400).
Proof.
  rewrite (update_bill_payment_same_second Sample.env Sample.env "101500" 1
             (mkPayment (Some 500%Q) None None) (mkPayment (Some 600%Q) None None)
             Sample.unpaid
             (Bill.calculate_totals (Sample.bill "BT-261104-AAAAAAA1" 0 0)
                [Sample.item 1 1 3 "pending"; Sample.item 2 1 2 "completed"])).
  - reflexivity.
  - vm_compute. reflexivity.
  - intros p Hp. vm_compute in Hp. inversion Hp.
  - reflexivity.
  - reflexivity.
Defined.

End PaymentUpdate.

(** ** What bill creation stores *)

Section Stored.
Import Routes.

(** The bill [create_bill] builds for a number and the items of the loop. *)
Let new_bill (number : string) (data : BillData) (its : list BillItem.t) : Bill.t :=
  Bill.calculate_totals
    (Bill.mk number (customerName data) 0 (discount data) (discountType data)
       (tax data) (taxType data) 0 (paidAmount data) 0 (paymentMethod data) "pending")
    its.

(** The payment [create_bill] records for a stored bill. *)
Let record_payment (bill_id : Z) (bill : Bill.t) (db : DB) : DB :=
  Session.add_payment bill_id ("PAY-" ++ Bill.bill_number bill)
    (Bill.paid_amount bill) (Bill.payment_method bill)
    (if Py.ge (Bill.paid_amount bill) (Bill.total bill) then "completed" else "partial")
    db.

Lemma next_id_above (ids : list Z) (x : Z) : x ∈ ids -> x < next_id ids.
Proof.
  unfold next_id. induction ids as [|y ids IH]; intros Hin.
  - inversion Hin.
  - cbn [fold_right]. apply elem_of_cons in Hin as [->|Hin].
    + lia.
    + specialize (IH Hin). lia.
Qed.

Lemma next_bill_id_free (db : DB) :
  bills db !! next_id (map fst (map_to_list (bills db))) = None.
Proof.
  destruct (bills db !! _) as [b|] eqn:E; [|reflexivity].
  pose proof (proj2 (elem_of_map_to_list _ _ _) E) as Hin.
  apply list_elem_of_In, (in_map fst), list_elem_of_In in Hin. cbn [fst] in Hin.
  apply next_id_above in Hin. lia.
Qed.

(** Every way [create_bill] can return: nothing stored; or the bill
    stored, with or without its payment. *)
Lemma create_bill_outcome env fuel data db r db' :
  create_bill env fuel data db = Some (r, db') ->
  (db' = db /\ exists e c, r = (Error e, c))
  \/ exists number ps its added,
       generate_unique_bill_number fuel env 0 db = Some number
       /\ add_items (products db) (items data) (products db) [] [] = Finished ps its added
       /\ Session.not_null_ok db = true
       /\ let bill := new_bill number data its in
          let stored := Session.add_bill bill its (set_products ps db) in
          let created :=
            (BillCreated number (fst stored) (Py.round2 (Bill.total bill))
               (Py.round2 (Bill.change_amount bill)) added, 201) in
          (Py.gt (Bill.paid_amount bill) 0 = false
           /\ r = created /\ db' = snd stored)
          \/ (Py.gt (Bill.paid_amount bill) 0 = true
              /\ (exists e, r = (Error e, 400)) /\ db' = snd stored)
          \/ (Py.gt (Bill.paid_amount bill) 0 = true
              /\ r = created /\ db' = record_payment (fst stored) bill (snd stored)).
Proof.
  unfold create_bill. session_simpl.
  destruct (items data) as [|l0 ls];
    [intros H; injection H as <- <-; left; eauto|].
  destruct (generate_unique_bill_number fuel env 0 db) as [number|]; [|discriminate].
  destruct (add_items (products db) (l0 :: ls) (products db) [] []) as [r0|e|ps its added] eqn:Hrun.
  - intros H. injection H as <- <-. left. split; [reflexivity|].
    exact (add_items_returned _ _ _ _ _ Hrun).
  - intros H. injection H as <- <-. left. eauto.
  - destruct (Session.commit env 0 _) as [e|s0] eqn:Hc0;
      [intros H; injection H as <- <-; left; eauto|].
    apply commit_inr in Hc0 as (-> & _ & Hnn).
    cbn [Session.working Session.update Session.add_bill snd] in Hnn.
    intros H. right. exists number, ps, its, added.
    split; [reflexivity|]. split; [reflexivity|]. split; [exact Hnn|].
    cbn zeta. fold (new_bill number data its) in H |- *.
    destruct (Py.gt (Bill.paid_amount (new_bill number data its)) 0).
    + destruct (Session.commit_payment env 1 _ _) as [e|s1] eqn:Hc1.
      * injection H as <- <-. right. left. eauto.
      * apply commit_payment_inr in Hc1 as (-> & _ & _).
        injection H as <- <-. right. right. repeat split.
    + injection H as <- <-. left. repeat split.
Qed.

(** X5.  [create_bill] refuses a request without items with 400 'No items
    in bill'.  At the first line that cannot be billed it answers, after
    the lines before it went through: 400 with the name of the key when
    [productId] or [quantity] is missing, 404 'Product with ID n not found'
    when no product has the id, and 400 'Invalid quantity for <name>' when
    the quantity is not positive.  In every case nothing is stored. *)
Theorem create_bill_rejects env (fuel : nat) (data : BillData) (db : DB) :
  (items data = [] ->
   create_bill env fuel data db = Some ((Error "No items in bill", 400), db))
  /\ (forall before line rest number ps its added,
        items data = (before ++ line :: rest)%list ->
        generate_unique_bill_number fuel env 0 db = Some number ->
        add_items (products db) before (products db) [] [] = Finished ps its added ->
        (productId line = None ->
         create_bill env fuel data db = Some ((Error "'productId'", 400), db))
        /\ (forall pid,
              productId line = Some pid -> ps !! pid = None ->
              create_bill env fuel data db
              = Some ((Error ("Product with ID " ++ Py.str pid ++ " not found"), 404), db))
        /\ (forall pid p,
              productId line = Some pid -> ps !! pid = Some p ->
              quantity line = None ->
              create_bill env fuel data db = Some ((Error "'quantity'", 400), db))
        /\ (forall pid p q,
              productId line = Some pid -> ps !! pid = Some p ->
              quantity line = Some q -> q <= 0 ->
              create_bill env fuel data db
              = Some ((Error ("Invalid quantity for " ++ Product.name p), 400), db))).
Proof.
  split.
  - intros Hnil. unfold create_bill. rewrite Hnil. reflexivity.
  - intros before line rest number ps its added Hsplit Hgen Hbefore.
    assert (Hrun : forall r,
              add_items (products db) [line] ps its added = r ->
              (forall ps' its' added', r <> Finished ps' its' added') ->
              create_bill env fuel data db
              = Some (match r with
                      | Returned a => a
                      | Raised e => (Error e, 400)
                      | Finished _ _ _ => (Error "", 400)
                      end, db)).
    { intros r Hr Hnot. unfold create_bill. session_simpl.
      destruct (items data) as [|l0 ls]; [destruct before; discriminate|].
      rewrite Hgen, Hsplit, add_items_app, Hbefore.
      change (line :: rest) with ([line] ++ rest)%list.
      rewrite add_items_app, Hr.
      destruct r as [a|e|ps' its' added']; [reflexivity|reflexivity|].
      exfalso. exact (Hnot _ _ _ eq_refl). }
    split; [|split; [|split]].
    + intros Hpid. apply (Hrun (Raised "'productId'")); [|discriminate].
      cbn [add_items]. rewrite Hpid. reflexivity.
    + intros pid Hpid Hnone.
      apply (Hrun (Returned (Error ("Product with ID " ++ Py.str pid ++ " not found"),
                             404))); [|discriminate].
      cbn [add_items]. rewrite Hpid, Hnone. reflexivity.
    + intros pid p Hpid Hp Hq. apply (Hrun (Raised "'quantity'")); [|discriminate].
      cbn [add_items]. rewrite Hpid, Hp, Hq. reflexivity.
    + intros pid p q Hpid Hp Hq Hle.
      apply (Hrun (Returned (Error ("Invalid quantity for " ++ Product.name p), 400)));
        [|discriminate].
      cbn [add_items]. rewrite Hpid, Hp, Hq.
      destruct (Z.leb_spec q 0); [reflexivity|lia].
Qed.

Lemma create_bill_rejects_witness :
  create_bill Sample.env 1
    (mkData [mkItem (Some 1) (Some 2); mkItem (Some 7) (Some 1)] "Walk-in Customer"
            0 "amount" 0 "percentage" 0 "cash")
    Sample.shop
  = Some ((Error "Product with ID 7 not found", 404), Sample.shop).
Proof.
  destruct (proj2 (create_bill_rejects Sample.env 1
                     (mkData [mkItem (Some 1) (Some 2); mkItem (Some 7) (Some 1)]
                             "Walk-in Customer" 0 "amount" 0 "percentage" 0 "cash")
                     Sample.shop)
              [mkItem (Some 1) (Some 2)] (mkItem (Some 7) (Some 1)) []
              "BT-261104-ABCDEFGH"
              {[ 1 := Product.with_quantity 8 Sample.lamp ]}
              [BillItem.mk 0 0 1 "Lamp" "" "" 100 2 (100 * inject_Z 2) "pending"]
              [mkAdded "Lamp" 2 (100 * inject_Z 2) "pending"]
              eq_refl eq_refl eq_refl)
    as (_ & Hunknown & _).
  exact (Hunknown 7 eq_refl eq_refl).
Defined.

Lemma add_items_requested_nonneg {stored : gmap Z Product.t} (lines : list ItemData) :
  forall ps its added ps' its' added',
    add_items stored lines ps its added = Finished ps' its' added' ->
    forall pid, 0 <= requested pid lines.
Proof.
  induction lines as [|line lines IH]; intros ps its added ps' its' added' Hrun pid.
  - cbn. lia.
  - cbn [add_items] in Hrun. cbn [requested fold_right]. fold (requested pid lines).
    destruct (productId line) as [pid0|]; [|discriminate].
    destruct (ps !! pid0) as [p0|]; [|discriminate].
    destruct (quantity line) as [q|]; [|discriminate].
    destruct (Z.leb_spec q 0); [discriminate|].
    destruct (Product.quantity p0 <? q)%Z; [discriminate|].
    pose proof (IH _ _ _ _ _ _ Hrun pid). case_bool_decide; lia.
Qed.

(** The loop changes nothing of a product but its quantity, and only
    downwards. *)
Lemma add_items_products {stored : gmap Z Product.t} (lines : list ItemData) ps its added ps' its' added' :
  add_items stored lines ps its added = Finished ps' its' added' ->
  (forall pid, ps' !! pid = None <-> ps !! pid = None)
  /\ (forall pid p', ps' !! pid = Some p' ->
        exists p, ps !! pid = Some p
                  /\ Product.name p' = Product.name p
                  /\ Product.model p' = Product.model p
                  /\ Product.type p' = Product.type p
                  /\ Product.sell_price p' = Product.sell_price p
                  /\ Product.quantity p' <= Product.quantity p).
Proof.
  intros Hrun. split.
  - intros pid. rewrite (add_items_stock _ _ _ _ _ _ _ Hrun pid).
    destruct (ps !! pid); cbn; split; congruence.
  - intros pid p'. rewrite (add_items_stock _ _ _ _ _ _ _ Hrun pid).
    destruct (ps !! pid) as [p|]; [|discriminate].
    cbn. intros H. injection H as <-. exists p.
    pose proof (add_items_requested_nonneg _ _ _ _ _ _ _ Hrun pid).
    cbn. repeat split; try reflexivity. lia.
Qed.

(** X6.  Whatever [create_bill] answers, every bill, item and payment
    that was stored before is stored unchanged afterwards: the new bill
    gets an unused primary key and new rows are appended.  No product is
    added or removed, and a product changes in nothing but its quantity,
    which does not grow. *)
Theorem create_bill_keeps_rows env (fuel : nat) (data : BillData) (db : DB)
    (r : Response) (db' : DB) :
  create_bill env fuel data db = Some (r, db') ->
  bills db ⊆ bills db'
  /\ (exists new, bill_items db' = (bill_items db ++ new)%list)
  /\ (exists new, payments db' = (payments db ++ new)%list)
  /\ (forall pid, products db' !! pid = None <-> products db !! pid = None)
  /\ (forall pid p', products db' !! pid = Some p' ->
        exists p, products db !! pid = Some p
                  /\ Product.name p' = Product.name p
                  /\ Product.model p' = Product.model p
                  /\ Product.type p' = Product.type p
                  /\ Product.sell_price p' = Product.sell_price p
                  /\ Product.quantity p' <= Product.quantity p).
Proof.
  intros Hcreate.
  apply create_bill_outcome in Hcreate
    as [[-> _]|(number & ps & its & added & _ & Hrun & _ & Hcases)].
  - split; [reflexivity|]. split; [exists []; symmetry; apply app_nil_r|].
    split; [exists []; symmetry; apply app_nil_r|].
    split; [tauto|]. intros pid p' Hp'. exists p'. repeat split; try assumption; lia.
  - pose proof (add_items_products _ _ _ _ _ _ _ Hrun) as [Hnone Hsome].
    cbn zeta in Hcases. unfold record_payment, Session.add_payment in Hcases.
    session_simpl_in Hcases.
    destruct Hcases as [(_ & _ & ->)|[(_ & _ & ->)|(_ & _ & ->)]]; session_simpl;
      (split; [apply insert_subseteq, next_bill_id_free|]);
      (split; [eexists; reflexivity|]);
      (split; [first [exists []; symmetry; apply app_nil_r | eexists; reflexivity]|]);
      (split; [exact Hnone | exact Hsome]).
Qed.

Lemma create_bill_keeps_rows_witness :
  exists r db',
    create_bill Sample.env 1 Sample.two_lamps Sample.unpaid = Some (r, db')
    /\ map BillItem.id (bill_items Sample.unpaid) = [1; 2; 3]
    /\ bills Sample.unpaid ⊆ bills db'
    /\ (exists new, bill_items db' = (bill_items Sample.unpaid ++ new)%list)
    /\ (exists new, payments db' = (payments Sample.unpaid ++ new)%list).
Proof.
  eexists _, _.
  match goal with
  | |- ?run /\ _ => assert (Hrun : run) by (vm_compute; reflexivity)
  end.
  split; [exact Hrun|]. split; [reflexivity|].
  destruct (create_bill_keeps_rows _ _ _ _ _ _ Hrun) as (Hbills & Hitems & Hpayments & _).
  auto.
Defined.

Lemma filter_none {A} (P : A -> Prop) `{forall x, Decision (P x)} (l : list A) :
  (forall x, x ∈ l -> ~ P x) -> filter P l = [].
Proof.
  induction l as [|x l IH]; intros Hall; [reflexivity|].
  rewrite filter_cons.
  destruct (decide (P x)) as [HP|_].
  - exfalso. exact (Hall x (list_elem_of_here _ _) HP).
  - apply IH. intros y Hy. apply Hall. apply list_elem_of_further, Hy.
Qed.

Lemma filter_all {A} (P : A -> Prop) `{forall x, Decision (P x)} (l : list A) :
  (forall x, x ∈ l -> P x) -> filter P l = l.
Proof.
  induction l as [|x l IH]; intros Hall; [reflexivity|].
  rewrite filter_cons.
  destruct (decide (P x)) as [_|HP].
  - f_equal. apply IH. intros y Hy. apply Hall. apply list_elem_of_further, Hy.
  - exfalso. exact (HP (Hall x (list_elem_of_here _ _))).
Qed.

(** Numbering the items of a new bill changes their keys only. *)
Lemma number_items_fmap {A} (g : BillItem.t -> A) (b first : Z) (its : list BillItem.t) :
  (forall i it, g (BillItem.with_ids i b it) = g it) ->
  g <$> Session.number_items b first its = g <$> its.
Proof.
  intros Hg. unfold Session.number_items. rewrite fmap_imap.
  rewrite (imap_ext _ (const g)); [apply imap_const|].
  intros i it _. cbn. apply Hg.
Qed.

Lemma number_items_elem (b first : Z) (its : list BillItem.t) (it : BillItem.t) :
  it ∈ Session.number_items b first its ->
  BillItem.bill_id it = b
  /\ first <= BillItem.id it
  /\ exists it0, it0 ∈ its
       /\ BillItem.item_status it = BillItem.item_status it0
       /\ BillItem.quantity it = BillItem.quantity it0
       /\ BillItem.product_id it = BillItem.product_id it0
       /\ BillItem.sell_price it = BillItem.sell_price it0
       /\ BillItem.total it = BillItem.total it0.
Proof.
  unfold Session.number_items. intros Hin.
  apply elem_of_lookup_imap_1 in Hin as (k & it0 & -> & Hk).
  cbn. split; [reflexivity|]. split; [lia|].
  exists it0. split; [exact (list_elem_of_lookup_2 _ _ _ Hk)|]. repeat split.
Qed.

Lemma sum_totals_fmap (l1 l2 : list BillItem.t) :
  BillItem.total <$> l1 = BillItem.total <$> l2 ->
  Bill.sum_totals l1 = Bill.sum_totals l2.
Proof.
  unfold Bill.sum_totals. generalize 0%Q as acc. revert l2.
  induction l1 as [|x l1 IH]; intros [|y l2] acc Heq; try discriminate; [reflexivity|].
  cbn in Heq. injection Heq as Hxy Heq. cbn [fold_left]. rewrite Hxy.
  apply IH. exact Heq.
Qed.

(** The totals of a bill depend on its items through their line totals
    only. *)
Lemma calculate_totals_fmap (b : Bill.t) (l1 l2 : list BillItem.t) :
  BillItem.total <$> l1 = BillItem.total <$> l2 ->
  Bill.calculate_totals b l1 = Bill.calculate_totals b l2.
Proof.
  intros Heq. unfold Bill.calculate_totals. rewrite (sum_totals_fmap l1 l2 Heq).
  reflexivity.
Qed.

(** The items the loop appends are the lines, in order, and pending. *)
Lemma add_items_lines {stored : gmap Z Product.t} (lines : list ItemData) :
  forall ps its added ps' its' added',
    add_items stored lines ps its added = Finished ps' its' added' ->
    (fun it => (Some (BillItem.product_id it), Some (BillItem.quantity it))) <$> its'
    = (((fun it => (Some (BillItem.product_id it), Some (BillItem.quantity it))) <$> its)
       ++ ((fun l => (productId l, quantity l)) <$> lines))%list
    /\ (Forall (fun it => BillItem.item_status it = "pending"
                         /\ 0 < BillItem.quantity it) its ->
        Forall (fun it => BillItem.item_status it = "pending"
                          /\ 0 < BillItem.quantity it) its').
Proof.
  induction lines as [|line lines IH]; intros ps its added ps' its' added' Hrun.
  - cbn in Hrun. injection Hrun as _ <- _. cbn. rewrite app_nil_r. auto.
  - cbn [add_items] in Hrun.
    destruct (productId line) as [pid0|] eqn:Hpid; [|discriminate].
    destruct (ps !! pid0) as [p0|]; [|discriminate].
    destruct (quantity line) as [q|] eqn:Hq; [|discriminate].
    destruct (Z.leb_spec q 0); [discriminate|].
    destruct (Product.quantity p0 <? q)%Z; [discriminate|].
    destruct (IH _ _ _ _ _ _ Hrun) as [Hmap Hall]. split.
    + rewrite Hmap, fmap_app, <- app_assoc. cbn. rewrite Hpid, Hq. reflexivity.
    + intros Hits. apply Hall. apply Forall_app. split; [exact Hits|].
      constructor; [|constructor]. cbn. split; [reflexivity|lia].
Qed.

(** The items of the bill that [Session.add_bill] stores, when no item
    stored before points to a bill that is not stored. *)
Lemma bill_items_of_add_bill (bill : Bill.t) (its : list BillItem.t) (db : DB) :
  (forall it, it ∈ bill_items db -> is_Some (bills db !! BillItem.bill_id it)) ->
  let stored := Session.add_bill bill its db in
  bill_items_of (fst stored) (snd stored)
  = Session.number_items (fst stored) (next_id (map BillItem.id (bill_items db))) its.
Proof.
  intros Hfk. cbn zeta. unfold bill_items_of. session_simpl.
  rewrite filter_app, filter_none, filter_all; [reflexivity| |].
  - intros it Hit. apply number_items_elem in Hit as [Hb _]. exact Hb.
  - intros it Hit Heq. destruct (Hfk it Hit) as [b Hb].
    rewrite Heq, next_bill_id_free in Hb. discriminate.
Qed.

(** What a 201 answer of [create_bill] says about the stored tables. *)
Lemma create_bill_created_outcome env fuel data db number bill_id total change added db' :
  create_bill env fuel data db
  = Some ((BillCreated number bill_id total change added, 201), db') ->
  exists ps its,
    generate_unique_bill_number fuel env 0 db = Some number
    /\ add_items (products db) (items data) (products db) [] [] = Finished ps its added
    /\ Session.not_null_ok db = true
    /\ let bill := new_bill number data its in
       let stored := Session.add_bill bill its (set_products ps db) in
       bill_id = fst stored
       /\ total = Py.round2 (Bill.total bill)
       /\ change = Py.round2 (Bill.change_amount bill)
       /\ db' = if Py.gt (paidAmount data) 0
                then record_payment (fst stored) bill (snd stored)
                else snd stored.
Proof.
  intros Hcreate.
  apply create_bill_outcome in Hcreate
    as [[_ (e & c & Hr)]|(number0 & ps & its & added0 & Hgen & Hrun & Hnn & Hcases)];
    [discriminate|].
  cbn zeta in Hcases.
  change (Bill.paid_amount (new_bill number0 data its)) with (paidAmount data) in Hcases.
  destruct Hcases as [(Hgt & Hr & ->)|[(_ & (e & Hr) & _)|(Hgt & Hr & ->)]];
    [|discriminate|];
    injection Hr as -> -> -> -> ->; exists ps, its;
    rewrite Hgt; repeat split; assumption.
Qed.

(** X7.  When [create_bill] answers 201 on tables whose items all point
    to stored bills, the bill is stored under the answered id, which was
    unused, with the answered number.  The answered total and change are
    the stored ones rounded to two decimals; the stored amounts are not
    rounded.  Its stored items are the requested lines, in order, all
    pending, and the stored totals are those of [calculate_totals] over
    these items, the subtotal being the sum of price times quantity. *)
Theorem create_bill_stores_bill env (fuel : nat) (data : BillData) (db : DB)
    (number : string) (bill_id : Z) (total change : Q) (added : list AddedItem)
    (db' : DB) :
  keys_ok db ->
  create_bill env fuel data db
  = Some ((BillCreated number bill_id total change added, 201), db') ->
  bills db !! bill_id = None
  /\ exists bill,
       bills db' !! bill_id = Some bill
       /\ Bill.bill_number bill = number
       /\ Py.round2 (Bill.total bill) = total
       /\ Py.round2 (Bill.change_amount bill) = change
       /\ Bill.calculate_totals bill (bill_items_of bill_id db') = bill
       /\ (Bill.subtotal bill == Qsum (map line_total (bill_items_of bill_id db')))%Q
       /\ (fun it => (Some (BillItem.product_id it), Some (BillItem.quantity it)))
            <$> bill_items_of bill_id db'
          = (fun l => (productId l, quantity l)) <$> items data
       /\ Forall (fun it => BillItem.item_status it = "pending")
                 (bill_items_of bill_id db').
Proof.
  intros (_ & Hfk & _) Hcreate.
  apply create_bill_created_outcome in Hcreate
    as (ps & its & _ & Hrun & _ & Hstored).
  cbn zeta in Hstored. destruct Hstored as (-> & -> & -> & ->).
  pose proof (bill_items_of_add_bill (new_bill number data its) its
                (set_products ps db) Hfk) as Hitems.
  cbn zeta in Hitems.
  change (bill_items (set_products ps db)) with (bill_items db) in Hitems.
  assert (Hof : bill_items_of
                  (fst (Session.add_bill (new_bill number data its) its
                          (set_products ps db)))
                  (if Py.gt (paidAmount data) 0
                   then record_payment
                          (fst (Session.add_bill (new_bill number data its) its
                                  (set_products ps db)))
                          (new_bill number data its)
                          (snd (Session.add_bill (new_bill number data its) its
                                  (set_products ps db)))
                   else snd (Session.add_bill (new_bill number data its) its
                               (set_products ps db)))
                = Session.number_items
                    (fst (Session.add_bill (new_bill number data its) its
                            (set_products ps db)))
                    (next_id (map BillItem.id (bill_items db))) its).
  { rewrite <- Hitems. destruct (Py.gt (paidAmount data) 0); reflexivity. }
  rewrite Hof. clear Hof Hitems.
  destruct (add_items_lines _ _ _ _ _ _ _ Hrun) as [Hlines Hpending].
  pose proof (add_items_line_totals _ _ _ _ _ _ _ Hrun (List.Forall_nil _)) as Htotals.
  specialize (Hpending (List.Forall_nil _)).
  split; [apply (next_bill_id_free (set_products ps db))|].
  exists (new_bill number data its).
  split; [destruct (Py.gt (paidAmount data) 0); apply lookup_insert_eq|].
  split; [reflexivity|]. split; [reflexivity|]. split; [reflexivity|].
  split; [|split; [|split]].
  - transitivity (Bill.calculate_totals (new_bill number data its) its);
      [|reflexivity].
    apply calculate_totals_fmap, number_items_fmap. reflexivity.
  - unfold new_bill. cbn [Bill.calculate_totals Bill.subtotal].
    rewrite sum_totals_Qsum.
    change (map line_total ?l) with (line_total <$> l).
    rewrite number_items_fmap by reflexivity.
    rewrite (map_line_total its Htotals). reflexivity.
  - rewrite number_items_fmap by reflexivity. exact Hlines.
  - apply Forall_forall. intros it Hit.
    apply number_items_elem in Hit as (_ & _ & it0 & Hit0 & -> & _).
    rewrite Forall_forall in Hpending. exact (proj1 (Hpending it0 Hit0)).
Qed.

Lemma create_bill_stores_bill_witness :
  exists total change added db' bill,
    create_bill Sample.env 1 Sample.one_candle Sample.candles
    = Some ((BillCreated "BT-261104-ABCDEFGH" 1 total change added, 201), db')
    /\ bills Sample.candles !! 1 = None
    /\ bills db' !! 1 = Some bill
    /\ (Bill.total bill == 125 # 1000)%Q
    /\ (total == 12 # 100)%Q
    /\ map BillItem.quantity (bill_items_of 1 db') = [1].
Proof.
  eexists _, _, _, _.
  match goal with
  | |- exists bill, ?run /\ _ =>
      assert (Hrun : run) by (vm_compute; reflexivity)
  end.
  destruct (create_bill_stores_bill _ _ _ _ _ _ _ _ _ _
              (conj (NoDup_nil_2 : NoDup (map BillItem.id (bill_items Sample.candles)))
                    (conj (fun it (H : it ∈ []) => False_ind _ (proj1 (elem_of_nil it) H))
                          (fun p (H : p ∈ []) => False_ind _ (proj1 (elem_of_nil p) H))))
              Hrun)
    as (Hfree & bill & Hbill & _ & Htotal & _).
  exists bill. split; [exact Hrun|]. split; [exact Hfree|]. split; [exact Hbill|].
  assert (bill = Sample.one_candle_bill) as ->.
  { apply (inj Some). rewrite <- Hbill. vm_compute. reflexivity. }
  repeat split; vm_compute; reflexivity.
Defined.

(** X8.  When [create_bill] answers 201 it has appended one payment row
    when the paid amount is positive, and none otherwise.  The row belongs
    to the new bill, is named 'PAY-' followed by the bill number, carries
    the paid amount and the method of the request, and is 'completed' when
    the paid amount covers the stored total of the bill, which is not
    rounded, and 'partial' when it does not. *)
Theorem create_bill_records_payment env (fuel : nat) (data : BillData) (db : DB)
    (number : string) (bill_id : Z) (total change : Q) (added : list AddedItem)
    (db' : DB) :
  create_bill env fuel data db
  = Some ((BillCreated number bill_id total change added, 201), db') ->
  exists bill,
    bills db' !! bill_id = Some bill
    /\ payments db'
       = (payments db
          ++ if Py.gt (paidAmount data) 0
             then [Payment.mk (next_id (map Payment.id (payments db))) (Some bill_id)
                     ("PAY-" ++ number) (paidAmount data) (paymentMethod data)
                     (if Py.ge (paidAmount data) (Bill.total bill)
                      then "completed" else "partial")]
             else [])%list.
Proof.
  intros Hcreate.
  apply create_bill_created_outcome in Hcreate
    as (ps & its & _ & _ & _ & Hstored).
  cbn zeta in Hstored. destruct Hstored as (-> & -> & -> & ->).
  exists (new_bill number data its).
  destruct (Py.gt (paidAmount data) 0).
  - split; [apply lookup_insert_eq|reflexivity].
  - split; [apply lookup_insert_eq|]. session_simpl. symmetry. apply app_nil_r.
Qed.

Lemma create_bill_records_payment_witness :
  payments Sample.sold
  = [Payment.mk 1 (Some 1) "PAY-BT-261104-ABCDEFGH" 400 "cash" "completed"].
Proof.
  destruct (create_bill_records_payment Sample.env 1 Sample.four_lamps Sample.shop
              "BT-261104-ABCDEFGH" 1 (Py.round2 (Bill.total Sample.four_lamps_bill))
              (Py.round2 (Bill.change_amount Sample.four_lamps_bill))
              [mkAdded "Lamp" 4 (100 * inject_Z 4) "pending"] Sample.sold)
    as (bill & Hbill & Hpayments).
  - vm_compute. reflexivity.
  - assert (bill = Sample.four_lamps_bill) as ->.
    { apply (inj Some). rewrite <- Hbill. vm_compute. reflexivity. }
    rewrite Hpayments. vm_compute. reflexivity.
Defined.

Lemma generate_free (fuel : nat) env (attempt : nat) (db : DB) (number : string) :
  generate_unique_bill_number fuel env attempt db = Some number ->
  find_bill_by_number number db = None.
Proof.
  revert attempt. induction fuel as [|fuel IH]; intros attempt; [discriminate|].
  cbn [generate_unique_bill_number].
  destruct (find_bill_by_number
              (bill_number_candidate (now env) (random_chars env attempt)) db) eqn:E.
  - apply IH.
  - intros H. injection H as <-. exact E.
Qed.

Lemma find_bill_by_number_found (db : DB) (bill_id : Z) (bill : Bill.t) :
  bills db !! bill_id = Some bill ->
  (forall j b, bills db !! j = Some b ->
     Bill.bill_number b = Bill.bill_number bill -> j = bill_id) ->
  find_bill_by_number (Bill.bill_number bill) db = Some (bill_id, bill).
Proof.
  intros Hbill Honly. unfold find_bill_by_number.
  destruct (find _ (map_to_list (bills db))) as [[j b]|] eqn:E.
  - apply find_some in E as [Hin Heq]. cbn in Heq. apply String.eqb_eq in Heq.
    apply list_elem_of_In, elem_of_map_to_list in Hin.
    pose proof (Honly j b Hin Heq) as ->. congruence.
  - exfalso.
    assert (Hin : In (bill_id, bill) (map_to_list (bills db))).
    { apply list_elem_of_In, elem_of_map_to_list. exact Hbill. }
    pose proof (find_none _ _ E _ Hin) as Hf. cbn in Hf.
    rewrite String.eqb_refl in Hf. discriminate.
Qed.

(** X9.  After [create_bill] answered 201, [get_bill_by_number] with the
    answered number and [get_bill_by_id] with the answered id find the
    same bill and list the same items; the total of that bill, rounded to
    two decimals as both write it, is the answered total. *)
Theorem create_bill_then_lookup env (fuel : nat) (data : BillData) (db : DB)
    (number : string) (bill_id : Z) (total change : Q) (added : list AddedItem)
    (db' : DB) :
  create_bill env fuel data db
  = Some ((BillCreated number bill_id total change added, 201), db') ->
  exists bill,
    Handlers.get_bill_by_number number db'
    = (Handlers.BillFound bill (bill_items_of bill_id db'), 200)
    /\ Handlers.get_bill_by_id bill_id db'
       = (Handlers.BillDetail bill (bill_items_of bill_id db')
            (payments_of bill_id db'), 200)
    /\ Bill.bill_number bill = number
    /\ Py.round2 (Bill.total bill) = total.
Proof.
  intros Hcreate.
  apply create_bill_created_outcome in Hcreate
    as (ps & its & Hgen & _ & _ & Hstored).
  cbn zeta in Hstored. destruct Hstored as (-> & -> & -> & ->).
  apply generate_free in Hgen.
  pose proof (proj1 (find_bill_by_number_None _ _) Hgen) as Hfresh.
  set (bill := new_bill number data its).
  set (id := fst (Session.add_bill bill its (set_products ps db))).
  set (db' := if Py.gt (paidAmount data) 0
              then record_payment id bill
                     (snd (Session.add_bill bill its (set_products ps db)))
              else snd (Session.add_bill bill its (set_products ps db))).
  assert (Hbills : bills db' = <[id := bill]> (bills db)).
  { unfold db'. destruct (Py.gt (paidAmount data) 0); reflexivity. }
  assert (Hbill : bills db' !! id = Some bill).
  { rewrite Hbills. apply lookup_insert_eq. }
  exists bill. split; [|split; [|split; reflexivity]].
  - unfold Handlers.get_bill_by_number.
    change number with (Bill.bill_number bill).
    rewrite (find_bill_by_number_found db' id bill Hbill); [reflexivity|].
    intros j b Hj Hnumber.
    destruct (decide (j = id)) as [->|Hne]; [reflexivity|].
    rewrite Hbills, lookup_insert_ne in Hj by congruence.
    exfalso. exact (Hfresh j b Hj Hnumber).
  - unfold Handlers.get_bill_by_id. rewrite Hbill. reflexivity.
Qed.

Lemma create_bill_then_lookup_witness :
  exists bill,
    Handlers.get_bill_by_number "BT-261104-ABCDEFGH" Sample.sold
    = (Handlers.BillFound bill (bill_items_of 1 Sample.sold), 200).
Proof.
  destruct (create_bill_then_lookup Sample.env 1 Sample.four_lamps Sample.shop
              "BT-261104-ABCDEFGH" 1 (Py.round2 (Bill.total Sample.four_lamps_bill))
              (Py.round2 (Bill.change_amount Sample.four_lamps_bill))
              [mkAdded "Lamp" 4 (100 * inject_Z 4) "pending"] Sample.sold)
    as (bill & Hfound & _).
  - vm_compute. reflexivity.
  - exists bill. exact Hfound.
Defined.

Lemma restocked_app (pid : Z) (l1 l2 : list BillItem.t) :
  restocked pid (l1 ++ l2) = restocked pid l1 + restocked pid l2.
Proof.
  induction l1 as [|it l1 IH]; [reflexivity|].
  cbn [app restocked fold_right]. fold (restocked pid (l1 ++ l2)) (restocked pid l1).
  rewrite IH. case_bool_decide; lia.
Qed.

Lemma restocked_number_items (pid b first : Z) (its : list BillItem.t) :
  restocked pid (Session.number_items b first its) = restocked pid its.
Proof.
  unfold Session.number_items. revert first.
  induction its as [|it its IH]; intros first; [reflexivity|].
  rewrite imap_cons. cbn [restocked fold_right].
  fold (restocked pid (imap ((fun k it0 =>
          BillItem.with_ids (first + Z.of_nat k) b it0) ∘ S) its)).
  fold (restocked pid its).
  rewrite (imap_ext _ (fun k it0 => BillItem.with_ids (first + 1 + Z.of_nat k) b it0)).
  - rewrite IH. reflexivity.
  - intros k x _. cbn. f_equal. lia.
Qed.

(** What the appended items hold of a product is what the lines ask of
    it. *)
Lemma add_items_restocked {stored : gmap Z Product.t} (lines : list ItemData) :
  forall ps its added ps' its' added',
    add_items stored lines ps its added = Finished ps' its' added' ->
    forall pid, restocked pid its' = restocked pid its + requested pid lines.
Proof.
  induction lines as [|line lines IH]; intros ps its added ps' its' added' Hrun pid.
  - cbn in Hrun. injection Hrun as _ <- _. cbn. lia.
  - cbn [add_items] in Hrun. cbn [requested fold_right]. fold (requested pid lines).
    destruct (productId line) as [pid0|]; [|discriminate].
    destruct (ps !! pid0) as [p0|]; [|discriminate].
    destruct (quantity line) as [q|]; [|discriminate].
    destruct (q <=? 0)%Z; [discriminate|].
    destruct (Product.quantity p0 <? q)%Z; [discriminate|].
    rewrite (IH _ _ _ _ _ _ Hrun pid), restocked_app.
    cbn [restocked fold_right BillItem.product_id BillItem.item_status BillItem.quantity].
    destruct (decide (pid0 = pid)) as [->|Hne].
    + rewrite !bool_decide_eq_true_2; [lia|reflexivity|].
      split; [reflexivity|discriminate].
    + rewrite !bool_decide_eq_false_2; [lia|exact Hne|]. intros [H _]. exact (Hne H).
Qed.

Lemma map_fixed {A} (f : A -> A) (l : list A) :
  (forall x, x ∈ l -> f x = x) -> map f l = l.
Proof.
  induction l as [|x l IH]; intros Hf; [reflexivity|]. cbn [map].
  rewrite (Hf x (list_elem_of_here _ _)), IH; [reflexivity|].
  intros y Hy. apply Hf, list_elem_of_further, Hy.
Qed.

(** X10.  Creating a bill on which nothing is paid and cancelling it gives
    back the stored tables exactly as they were before the bill: every
    product has its quantity again, and the bill and its items are gone. *)
Theorem create_unpaid_then_cancel env env' (fuel : nat) (data : BillData) (db : DB)
    (number : string) (bill_id : Z) (total change : Q) (added : list AddedItem)
    (db' : DB) :
  keys_ok db ->
  create_bill env fuel data db
  = Some ((BillCreated number bill_id total change added, 201), db') ->
  Py.gt (paidAmount data) 0 = false ->
  commit_raises env' 0 = None ->
  cancel_bill env' bill_id db' = ((BillCancelled, 200), db).
Proof.
  intros (_ & Hfk & Hpay) Hcreate Hgt Hc.
  apply create_bill_created_outcome in Hcreate
    as (ps & its & _ & Hrun & Hnn & Hstored).
  cbn zeta in Hstored. rewrite Hgt in Hstored. destruct Hstored as (-> & _ & _ & ->).
  pose proof (bill_items_of_add_bill (new_bill number data its) its
                (set_products ps db) Hfk) as Hitems.
  cbn zeta in Hitems.
  pose proof (next_bill_id_free db) as Hfree.
  session_simpl_in Hitems.
  unfold cancel_bill. session_simpl. rewrite lookup_insert_eq.
  unfold Session.commit. rewrite Hc. unfold Session.update, Session.start.
  session_simpl. rewrite Hitems.
  match goal with
  | |- context [Session.not_null_ok ?w] =>
      assert (Hback : w = db); [|rewrite Hback, Hnn; reflexivity]
  end.
  unfold Session.delete_bill. session_simpl.
  destruct db as [P B I Pay]. session_simpl_in Hfk. session_simpl_in Hpay.
  session_simpl_in Hfree. session_simpl_in Hrun. session_simpl. f_equal.
  - apply map_eq. intros pid. rewrite restore_stock_lookup.
    rewrite restocked_number_items, (add_items_restocked _ _ _ _ _ _ _ Hrun pid).
    rewrite (add_items_stock _ _ _ _ _ _ _ Hrun pid).
    destruct (P !! pid) as [p|]; [|reflexivity].
    cbn. f_equal. destruct p. unfold Product.with_quantity. cbn. f_equal. lia.
  - apply delete_insert_id. exact Hfree.
  - rewrite filter_app, filter_all, filter_none; [apply app_nil_r| |].
    + intros it Hit Hne. apply number_items_elem in Hit as [Hb _]. exact (Hne Hb).
    + intros it Hit Heq. destruct (Hfk it Hit) as [b Hb].
      rewrite Heq, Hfree in Hb. discriminate.
  - unfold refund_payments. rewrite map_map. apply map_fixed.
    intros p Hp. destruct (Hpay p Hp) as (b & Hb & [bill Hbill']).
    assert (Hne : Payment.bill_id p
                  <> Some (next_id (map fst (map_to_list B)))).
    { rewrite Hb. intros Heq. injection Heq as ->. congruence. }
    rewrite (bool_decide_eq_false_2 _ Hne). rewrite (bool_decide_eq_false_2 _ Hne).
    reflexivity.
Qed.

Lemma create_unpaid_then_cancel_witness :
  cancel_bill Sample.env 1
    (mkDB {[ 1 := Product.with_quantity 6 Sample.lamp ]}
          {[ 1 := Bill.calculate_totals
                    (Bill.mk "BT-261104-ABCDEFGH" "Walk-in Customer" 0 10 "percentage"
                       5 "percentage" 0 0 0 "cash" "pending")
                    [Sample.item 0 0 4 "pending"] ]}
          [Sample.item 1 1 4 "pending"] [])
  = ((BillCancelled, 200), Sample.shop).
Proof.
  apply (create_unpaid_then_cancel Sample.env Sample.env 1
           (mkData [mkItem (Some 1) (Some 4)] "Walk-in Customer"
                   10 "percentage" 5 "percentage" 0 "cash")
           Sample.shop "BT-261104-ABCDEFGH" 1
           (Py.round2
              (Bill.total
                 (Bill.calculate_totals
                    (Bill.mk "BT-261104-ABCDEFGH" "Walk-in Customer" 0 10 "percentage"
                       5 "percentage" 0 0 0 "cash" "pending")
                    [Sample.item 0 0 4 "pending"])))
           (Py.round2
              (Bill.change_amount
                 (Bill.calculate_totals
                    (Bill.mk "BT-261104-ABCDEFGH" "Walk-in Customer" 0 10 "percentage"
                       5 "percentage" 0 0 0 "cash" "pending")
                    [Sample.item 0 0 4 "pending"])))
           [mkAdded "Lamp" 4 (100 * inject_Z 4) "pending"]).
  - split; [constructor|]. split; intros x Hx; inversion Hx.
  - vm_compute. reflexivity.
  - reflexivity.
  - reflexivity.
Defined.

End Stored.

(** ** What the requests keep true of the stored tables *)

Section Invariants.
Import Routes Handlers.

(** A rewrite of item rows that touches nothing but the status. *)
Let status_only (f : BillItem.t -> BillItem.t) : Prop :=
  forall it, f it = it \/ f it = BillItem.with_status "completed" it.

Lemma complete_bill_item_outcome env (bill_id item_id : Z) (db : DB) :
  snd (complete_bill_item env bill_id item_id db) = db
  \/ exists f, status_only f
       /\ snd (complete_bill_item env bill_id item_id db)
          = set_bill_items (map f (bill_items db)) db.
Proof.
  unfold complete_bill_item. session_simpl.
  destruct (bills db !! bill_id); [|left; reflexivity].
  destruct (find_item item_id db) as [item|]; [|left; reflexivity].
  destruct (negb _); [left; reflexivity|].
  destruct (negb _); [left; reflexivity|].
  destruct (Session.commit env 0 _) as [e|s] eqn:Hc; [left; reflexivity|].
  apply commit_inr in Hc as (-> & _ & _). right.
  eexists. split; [|reflexivity].
  intros it. cbn. destruct (BillItem.id it =? item_id)%Z; auto.
Qed.

Lemma complete_all_outcome env (bill_id : Z) (db : DB) :
  snd (complete_all_bill_items env bill_id db) = db
  \/ exists f, status_only f
       /\ snd (complete_all_bill_items env bill_id db)
          = set_bill_items (map f (bill_items db)) db.
Proof.
  unfold complete_all_bill_items. session_simpl.
  destruct (bills db !! bill_id); [|left; reflexivity].
  destruct (pending_items bill_id db); [left; reflexivity|].
  destruct (Session.commit env 0 _) as [e|s] eqn:Hc; [left; reflexivity|].
  apply commit_inr in Hc as (-> & _ & _). right.
  eexists. split; [|reflexivity].
  intros it. cbn. case_bool_decide; auto.
Qed.

Lemma update_bill_payment_outcome env (hhmmss : string) (bill_id : Z)
    (data : PaymentData) (db : DB) :
  snd (update_bill_payment env hhmmss bill_id data db) = db
  \/ exists bill bill' payment,
       bills db !! bill_id = Some bill
       /\ Bill.bill_number bill' = Bill.bill_number bill
       /\ Bill.calculate_totals bill' (bill_items_of bill_id db) = bill'
       /\ Payment.bill_id payment = Some bill_id
       /\ snd (update_bill_payment env hhmmss bill_id data db)
          = set_payments (payments db ++ [payment]) (set_bill bill_id bill' db).
Proof.
  unfold update_bill_payment. session_simpl.
  destruct (bills db !! bill_id) as [bill|]; [|left; reflexivity].
  unfold Session.commit_payment. session_simpl.
  destruct (existsb _ (payments db)); [left; reflexivity|].
  destruct (Session.commit env 0 _) as [e|s] eqn:Hc; [left; reflexivity|].
  apply commit_inr in Hc as (-> & _ & _). right.
  unfold Session.update, Session.start, Session.add_payment. session_simpl.
  match goal with
  | |- context [set_payments (_ ++ [?p])%list (set_bill bill_id ?b db) = _] =>
      exists bill, b, p
  end.
  repeat split.
Qed.

Lemma void_bill_item_outcome env (bill_id item_id : Z) (db : DB) :
  snd (void_bill_item env bill_id item_id db) = db
  \/ exists bill item ps,
       bills db !! bill_id = Some bill
       /\ find_item item_id db = Some item
       /\ BillItem.bill_id item = bill_id
       /\ (ps = products db
           \/ ps = add_stock (BillItem.product_id item) (BillItem.quantity item)
                      (products db))
       /\ snd (void_bill_item env bill_id item_id db)
          = set_bill bill_id
              (Bill.calculate_totals bill
                 (bill_items_of bill_id (Session.delete_item item_id db)))
              (Session.delete_item item_id (set_products ps db)).
Proof.
  unfold void_bill_item. session_simpl.
  destruct (bills db !! bill_id) as [bill|]; [|left; reflexivity].
  destruct (find_item item_id db) as [item|]; [|left; reflexivity].
  destruct (Z.eqb_spec (BillItem.bill_id item) bill_id) as [Hown|_];
    [|left; reflexivity].
  cbn [negb].
  destruct (negb (String.eqb (BillItem.item_status item) "completed")).
  - session_simpl.
    destruct (Session.commit env 0 _) as [e|s] eqn:Hc; [left; reflexivity|].
    apply commit_inr in Hc as (-> & _ & _). right.
    exists bill, item,
      (add_stock (BillItem.product_id item) (BillItem.quantity item) (products db)).
    split; [reflexivity|]. split; [reflexivity|]. split; [exact Hown|].
    split; [right; reflexivity|reflexivity].
  - session_simpl.
    destruct (Session.commit env 0 _) as [e|s] eqn:Hc; [left; reflexivity|].
    apply commit_inr in Hc as (-> & _ & _). right.
    exists bill, item, (products db).
    split; [reflexivity|]. split; [reflexivity|]. split; [exact Hown|].
    split; [left; reflexivity|]. destruct db; reflexivity.
Qed.

(** A cancellation that is stored found no payment on the bill. *)
Lemma cancel_bill_outcome env (bill_id : Z) (db : DB) :
  snd (cancel_bill env bill_id db) = db
  \/ exists bill,
       bills db !! bill_id = Some bill
       /\ (forall p, p ∈ payments db -> Payment.bill_id p <> Some bill_id)
       /\ snd (cancel_bill env bill_id db)
          = mkDB (restore_stock (bill_items_of bill_id db) (products db))
                 (delete bill_id (bills db))
                 (filter (fun it => BillItem.bill_id it <> bill_id) (bill_items db))
                 (payments db).
Proof.
  unfold cancel_bill. session_simpl.
  destruct (bills db !! bill_id) as [bill|]; [|left; reflexivity].
  destruct (Session.commit env 0 _) as [e|s] eqn:Hc; [left; reflexivity|].
  apply commit_inr in Hc as (-> & _ & Hnn). right. exists bill.
  unfold Session.update, Session.start in Hnn |- *. session_simpl_in Hnn. session_simpl.
  assert (Hnone : forall p, p ∈ payments db -> Payment.bill_id p <> Some bill_id).
  { intros p Hp Hown.
    rewrite (not_null_ok_false _
               (Payment.mk (Payment.id p) None (Payment.payment_id p)
                  (Payment.amount p) (Payment.method p) "refunded")) in Hnn;
      [discriminate| |reflexivity].
    unfold Session.delete_bill, refund_payments. session_simpl.
    apply list_elem_of_In, in_map_iff.
    exists (Payment.with_status "refunded" p). split.
    - cbn. rewrite bool_decide_eq_true_2 by exact Hown. reflexivity.
    - apply in_map_iff. exists p. split.
      + rewrite bool_decide_eq_true_2 by exact Hown. reflexivity.
      + apply list_elem_of_In. exact Hp. }
  split; [reflexivity|]. split; [exact Hnone|].
  unfold Session.delete_bill, refund_payments. session_simpl. f_equal.
  rewrite map_map. apply map_fixed. intros p Hp.
  rewrite (bool_decide_eq_false_2 _ (Hnone p Hp)).
  rewrite (bool_decide_eq_false_2 _ (Hnone p Hp)). reflexivity.
Qed.

(** The stored tables [create_bill] can leave behind. *)
Lemma create_bill_stored env fuel data db r db' :
  create_bill env fuel data db = Some (r, db') ->
  db' = db
  \/ exists number ps its added b0,
       generate_unique_bill_number fuel env 0 db = Some number
       /\ add_items (products db) (items data) (products db) [] [] = Finished ps its added
       /\ Bill.bill_number b0 = number
       /\ let stored :=
            Session.add_bill (Bill.calculate_totals b0 its) its (set_products ps db) in
          db' = snd stored
          \/ exists pid a m st, db' = Session.add_payment (fst stored) pid a m st (snd stored).
Proof.
  intros Hcreate.
  apply create_bill_outcome in Hcreate
    as [[-> _]|(number & ps & its & added & Hgen & Hrun & _ & Hcases)];
    [left; reflexivity|].
  right. exists number, ps, its, added.
  exists (Bill.mk number (customerName data) 0 (discount data) (discountType data)
            (tax data) (taxType data) 0 (Routes.paidAmount data) 0
            (Routes.paymentMethod data) "pending").
  split; [exact Hgen|]. split; [exact Hrun|]. split; [reflexivity|].
  cbn zeta in Hcases |- *.
  destruct Hcases as [(_ & _ & ->)|[(_ & _ & ->)|(_ & _ & ->)]];
    [left; reflexivity|left; reflexivity|right; eauto].
Qed.

Lemma status_only_fields (f : BillItem.t -> BillItem.t) (it : BillItem.t) :
  status_only f ->
  BillItem.id (f it) = BillItem.id it
  /\ BillItem.bill_id (f it) = BillItem.bill_id it
  /\ BillItem.quantity (f it) = BillItem.quantity it
  /\ BillItem.total (f it) = BillItem.total it.
Proof. intros Hf. destruct (Hf it) as [->| ->]; repeat split. Qed.

Lemma restocked_nonneg (pid : Z) (its : list BillItem.t) :
  (forall it, it ∈ its -> 0 < BillItem.quantity it) -> 0 <= restocked pid its.
Proof.
  induction its as [|it its IH]; intros Hpos; [cbn; lia|].
  cbn [restocked fold_right]. fold (restocked pid its).
  pose proof (Hpos it (list_elem_of_here _ _)).
  assert (0 <= restocked pid its).
  { apply IH. intros x Hx. apply Hpos, list_elem_of_further, Hx. }
  case_bool_decide; lia.
Qed.

(** X11.  No request leaves a product below zero or an item without a
    positive quantity: when this holds of the stored tables before a
    request, it holds after it, whatever the request and its answer. *)
Theorem handle_keeps_stock env (req : Request) (db db' : DB) :
  stock_ok db -> handle env req db = Some db' -> stock_ok db'.
Proof.
  intros [Hps Hits] Hreq.
  destruct req as [fuel data|bill_id item_id|bill_id|hhmmss bill_id data
                   |bill_id|bill_id item_id]; cbn [handle] in Hreq.
  - destruct (create_bill env fuel data db) as [[r db0]|] eqn:Hcreate; [|discriminate].
    injection Hreq as <-.
    apply create_bill_stored in Hcreate
      as [->|(number & ps & its & added & b0 & _ & Hrun & _ & Hcases)];
      [split; assumption|].
    assert (Hstock : stock_ok
                       (snd (Session.add_bill (Bill.calculate_totals b0 its) its
                               (set_products ps db)))).
    { split; session_simpl.
      - intros pid p' Hp'.
        pose proof (add_items_stock _ _ _ _ _ _ _ Hrun pid) as Hpid.
        rewrite Hp' in Hpid.
        destruct (products db !! pid) as [p|] eqn:Hp; [|discriminate].
        exact (add_items_nonneg _ _ _ _ _ _ _ Hrun pid p p' Hp Hp'
                 (or_introl (Hps pid p Hp))).
      - intros it Hit. apply elem_of_app in Hit as [Hit|Hit]; [exact (Hits it Hit)|].
        apply number_items_elem in Hit as (_ & _ & it0 & Hit0 & _ & -> & _).
        destruct (add_items_lines _ _ _ _ _ _ _ Hrun) as [_ Hall].
        specialize (Hall (List.Forall_nil _)). rewrite Forall_forall in Hall.
        exact (proj2 (Hall it0 Hit0)). }
    cbn zeta in Hcases.
    destruct Hcases as [->|(pid & a & m & st & ->)]; exact Hstock.
  - injection Hreq as <-.
    destruct (complete_bill_item_outcome env bill_id item_id db)
      as [->|(f & Hf & ->)]; [split; assumption|].
    split; [exact Hps|]. session_simpl. intros it Hit.
    apply list_elem_of_In, in_map_iff in Hit as (it0 & <- & Hit0).
    destruct (status_only_fields f it0 Hf) as (_ & _ & -> & _).
    apply Hits, list_elem_of_In, Hit0.
  - injection Hreq as <-.
    destruct (complete_all_outcome env bill_id db)
      as [->|(f & Hf & ->)]; [split; assumption|].
    split; [exact Hps|]. session_simpl. intros it Hit.
    apply list_elem_of_In, in_map_iff in Hit as (it0 & <- & Hit0).
    destruct (status_only_fields f it0 Hf) as (_ & _ & -> & _).
    apply Hits, list_elem_of_In, Hit0.
  - injection Hreq as <-.
    destruct (update_bill_payment_outcome env hhmmss bill_id data db)
      as [->|(bill & bill' & payment & _ & _ & _ & _ & ->)]; split; assumption.
  - injection Hreq as <-.
    destruct (cancel_bill_outcome env bill_id db)
      as [->|(bill & _ & _ & ->)]; [split; assumption|].
    split; session_simpl.
    + intros pid p'. rewrite restore_stock_lookup.
      destruct (products db !! pid) as [p|] eqn:Hp; [|discriminate].
      cbn. intros H. injection H as <-. cbn.
      pose proof (Hps pid p Hp).
      assert (0 <= restocked pid (bill_items_of bill_id db)); [|lia].
      apply restocked_nonneg. intros it Hit.
      apply list_elem_of_filter in Hit as [_ Hit]. exact (Hits it Hit).
    + intros it Hit. apply list_elem_of_filter in Hit as [_ Hit]. exact (Hits it Hit).
  - injection Hreq as <-.
    destruct (void_bill_item_outcome env bill_id item_id db)
      as [->|(bill & item & ps & _ & Hitem & _ & Hstock & ->)]; [split; assumption|].
    apply find_item_Some in Hitem as [_ Hitem].
    split; session_simpl.
    + destruct Hstock as [->| ->]; [exact Hps|].
      unfold add_stock. intros pid p'.
      destruct (products db !! BillItem.product_id item) as [p|] eqn:Hp; [|apply Hps].
      destruct (decide (BillItem.product_id item = pid)) as [<-|Hne].
      * rewrite lookup_insert_eq. intros H. injection H as <-. cbn.
        pose proof (Hps _ p Hp). pose proof (Hits item Hitem). lia.
      * rewrite lookup_insert_ne by exact Hne. apply Hps.
    + intros it Hit. apply list_elem_of_filter in Hit as [_ Hit]. exact (Hits it Hit).
Qed.

Lemma sample_shop_ok :
  stock_ok Sample.shop /\ keys_ok Sample.shop
  /\ totals_ok Sample.shop /\ numbers_ok Sample.shop.
Proof.
  split; [|split; [|split]].
  - split.
    + intros pid p Hp.
      change (products Sample.shop)
        with ({[1 := Sample.lamp]} : gmap Z Product.t) in Hp.
      apply lookup_singleton_Some in Hp as [_ <-]. cbn. lia.
    + intros it Hit. inversion Hit.
  - split; [constructor|]. split; intros x Hx; inversion Hx.
  - intros bill_id bill Hbill. cbn in Hbill. rewrite lookup_empty in Hbill.
    discriminate.
  - intros i j bi bj Hi. cbn in Hi. rewrite lookup_empty in Hi. discriminate.
Qed.

Lemma handle_keeps_stock_witness : stock_ok Sample.sold.
Proof.
  apply (handle_keeps_stock Sample.env (CreateBill 1 Sample.four_lamps) Sample.shop).
  - exact (proj1 sample_shop_ok).
  - vm_compute. reflexivity.
Defined.

Lemma insert_is_Some {A} (m : gmap Z A) (i j : Z) (x : A) :
  is_Some (m !! j) -> is_Some (<[i := x]> m !! j).
Proof.
  intros Hj. destruct (decide (i = j)) as [->|Hne].
  - rewrite lookup_insert_eq. eauto.
  - rewrite lookup_insert_ne by exact Hne. exact Hj.
Qed.

Lemma NoDup_map_filter {A B} (g : A -> B) (P : A -> Prop)
    `{forall x, Decision (P x)} (l : list A) :
  NoDup (map g l) -> NoDup (map g (filter P l)).
Proof.
  induction l as [|x l IH]; intros Hnd; [constructor|].
  cbn [map] in Hnd. apply NoDup_cons in Hnd as [Hx Hnd].
  rewrite filter_cons. destruct (decide (P x)); [|exact (IH Hnd)].
  cbn [map]. apply NoDup_cons. split; [|exact (IH Hnd)].
  intros Hin. apply Hx.
  apply list_elem_of_In, in_map_iff in Hin as (y & Hy & Hin).
  apply list_elem_of_In, in_map_iff. exists y. split; [exact Hy|].
  apply list_elem_of_In. apply list_elem_of_In in Hin.
  apply list_elem_of_filter in Hin as [_ Hin]. exact Hin.
Qed.

Lemma number_items_ids (b first : Z) (its : list BillItem.t) :
  map BillItem.id (Session.number_items b first its)
  = (fun k => first + Z.of_nat k) <$> seq 0 (length its).
Proof.
  unfold Session.number_items.
  change (map BillItem.id ?l) with (BillItem.id <$> l).
  rewrite fmap_imap.
  rewrite (imap_ext _ (fun k _ => first + Z.of_nat k)) by reflexivity.
  apply (imap_seq_0 its (fun k => first + Z.of_nat k)).
Qed.

Lemma number_items_NoDup (b first : Z) (its : list BillItem.t) :
  NoDup (map BillItem.id (Session.number_items b first its)).
Proof.
  rewrite number_items_ids. apply NoDup_fmap_2_strong; [|apply NoDup_seq].
  intros x y _ _ Hxy. lia.
Qed.

(** Storing a new bill with its items keeps the keys in order. *)
Lemma keys_ok_add_bill (bill : Bill.t) (its : list BillItem.t) (db : DB) :
  keys_ok db -> keys_ok (snd (Session.add_bill bill its db)).
Proof.
  intros (Hnd & Hfk & Hpay). split; [|split]; session_simpl.
  - rewrite map_app. apply NoDup_app. split; [exact Hnd|].
    split; [|apply number_items_NoDup].
    intros x Hold Hnew. apply next_id_above in Hold.
    apply list_elem_of_In, in_map_iff in Hnew as (it & <- & Hit).
    apply list_elem_of_In, number_items_elem in Hit as (_ & Hge & _). lia.
  - intros it Hit. apply elem_of_app in Hit as [Hit|Hit].
    + apply insert_is_Some, Hfk, Hit.
    + apply number_items_elem in Hit as (-> & _). rewrite lookup_insert_eq. eauto.
  - intros p Hp. destruct (Hpay p Hp) as (b & Hb & Hsome).
    exists b. split; [exact Hb|]. apply insert_is_Some, Hsome.
Qed.

Lemma keys_ok_add_payment (bill_id : Z) (pid : string) (a : Q) (m st : string) (db : DB) :
  keys_ok db -> is_Some (bills db !! bill_id) ->
  keys_ok (Session.add_payment bill_id pid a m st db).
Proof.
  intros (Hnd & Hfk & Hpay) Hbill. split; [|split]; session_simpl;
    [exact Hnd|exact Hfk|].
  intros p Hp. apply elem_of_app in Hp as [Hp|Hp]; [exact (Hpay p Hp)|].
  apply list_elem_of_singleton in Hp as ->. exists bill_id. split; [reflexivity|].
  exact Hbill.
Qed.

Lemma keys_ok_set_bill (bill_id : Z) (bill : Bill.t) (db : DB) :
  keys_ok db -> keys_ok (set_bill bill_id bill db).
Proof.
  intros (Hnd & Hfk & Hpay). split; [|split]; session_simpl; [exact Hnd| |].
  - intros it Hit. apply insert_is_Some, Hfk, Hit.
  - intros p Hp. destruct (Hpay p Hp) as (b & Hb & Hsome).
    exists b. split; [exact Hb|]. apply insert_is_Some, Hsome.
Qed.

Lemma keys_ok_status (f : BillItem.t -> BillItem.t) (db : DB) :
  status_only f -> keys_ok db -> keys_ok (set_bill_items (map f (bill_items db)) db).
Proof.
  intros Hf (Hnd & Hfk & Hpay). split; [|split]; session_simpl; [| |exact Hpay].
  - rewrite map_map.
    rewrite (map_ext _ BillItem.id); [exact Hnd|].
    intros it. apply (status_only_fields f it Hf).
  - intros it Hit. apply list_elem_of_In, in_map_iff in Hit as (it0 & <- & Hit0).
    destruct (status_only_fields f it0 Hf) as (_ & -> & _).
    apply Hfk, list_elem_of_In, Hit0.
Qed.

(** X12.  No request breaks the keys of the stored tables: when item ids
    are unique and every item and every payment points to a stored bill
    before a request, the same holds after it. *)
Theorem handle_keeps_keys env (req : Request) (db db' : DB) :
  keys_ok db -> handle env req db = Some db' -> keys_ok db'.
Proof.
  intros Hok Hreq.
  destruct req as [fuel data|bill_id item_id|bill_id|hhmmss bill_id data
                   |bill_id|bill_id item_id]; cbn [handle] in Hreq.
  - destruct (create_bill env fuel data db) as [[r db0]|] eqn:Hcreate; [|discriminate].
    injection Hreq as <-.
    apply create_bill_stored in Hcreate
      as [->|(number & ps & its & added & b0 & _ & _ & _ & Hcases)]; [exact Hok|].
    pose proof (keys_ok_add_bill (Bill.calculate_totals b0 its) its
                  (set_products ps db) Hok) as Hstored.
    cbn zeta in Hcases.
    destruct Hcases as [->|(pid & a & m & st & ->)]; [exact Hstored|].
    apply keys_ok_add_payment; [exact Hstored|].
    session_simpl. rewrite lookup_insert_eq. eauto.
  - injection Hreq as <-.
    destruct (complete_bill_item_outcome env bill_id item_id db)
      as [->|(f & Hf & ->)]; [exact Hok|]. apply keys_ok_status; assumption.
  - injection Hreq as <-.
    destruct (complete_all_outcome env bill_id db)
      as [->|(f & Hf & ->)]; [exact Hok|]. apply keys_ok_status; assumption.
  - injection Hreq as <-.
    destruct (update_bill_payment_outcome env hhmmss bill_id data db)
      as [->|(bill & bill' & payment & Hbill & _ & _ & Hown & ->)]; [exact Hok|].
    pose proof (keys_ok_set_bill bill_id bill' db Hok) as (Hnd & Hfk & Hpay).
    split; [|split]; session_simpl; [exact Hnd|exact Hfk|].
    intros p Hp. apply elem_of_app in Hp as [Hp|Hp]; [exact (Hpay p Hp)|].
    apply list_elem_of_singleton in Hp as ->. exists bill_id. split; [exact Hown|].
    session_simpl. rewrite lookup_insert_eq. eauto.
  - injection Hreq as <-.
    destruct (cancel_bill_outcome env bill_id db)
      as [->|(bill & _ & Hnone & ->)]; [exact Hok|].
    destruct Hok as (Hnd & Hfk & Hpay). split; [|split]; session_simpl.
    + apply NoDup_map_filter, Hnd.
    + intros it Hit. apply list_elem_of_filter in Hit as [Hne Hit].
      rewrite lookup_delete_ne by congruence. exact (Hfk it Hit).
    + intros p Hp. destruct (Hpay p Hp) as (b & Hb & Hsome).
      exists b. split; [exact Hb|].
      rewrite lookup_delete_ne; [exact Hsome|].
      intros ->. exact (Hnone p Hp Hb).
  - injection Hreq as <-.
    destruct (void_bill_item_outcome env bill_id item_id db)
      as [->|(bill & item & ps & _ & _ & _ & _ & ->)]; [exact Hok|].
    apply keys_ok_set_bill.
    destruct Hok as (Hnd & Hfk & Hpay). split; [|split]; session_simpl;
      [|  |exact Hpay].
    + apply NoDup_map_filter, Hnd.
    + intros it Hit. apply list_elem_of_filter in Hit as [_ Hit]. exact (Hfk it Hit).
Qed.

Lemma handle_keeps_keys_witness : keys_ok Sample.sold.
Proof.
  apply (handle_keeps_keys Sample.env (CreateBill 1 Sample.four_lamps) Sample.shop).
  - exact (proj1 (proj2 sample_shop_ok)).
  - vm_compute. reflexivity.
Defined.

Lemma numbers_ok_insert_same (db db' : DB) (bill_id : Z) (bill bill' : Bill.t) :
  bills db !! bill_id = Some bill ->
  Bill.bill_number bill' = Bill.bill_number bill ->
  bills db' = <[bill_id := bill']> (bills db) ->
  numbers_ok db -> numbers_ok db'.
Proof.
  intros Hbill Hnumber Hbills Hok i j bi bj. rewrite Hbills.
  destruct (decide (bill_id = i)) as [<-|Hi], (decide (bill_id = j)) as [<-|Hj];
    rewrite ?lookup_insert_eq, ?lookup_insert_ne by assumption.
  - reflexivity.
  - intros H Hj' Heq. injection H as <-.
    apply (Hok bill_id j bill bj Hbill Hj'). congruence.
  - intros Hi' H Heq. injection H as <-.
    apply (Hok i bill_id bi bill Hi' Hbill). congruence.
  - apply Hok.
Qed.

Lemma numbers_ok_insert_fresh (db db' : DB) (bill_id : Z) (bill' : Bill.t) :
  (forall j b, bills db !! j = Some b -> Bill.bill_number b <> Bill.bill_number bill') ->
  bills db' = <[bill_id := bill']> (bills db) ->
  numbers_ok db -> numbers_ok db'.
Proof.
  intros Hfresh Hbills Hok i j bi bj. rewrite Hbills.
  destruct (decide (bill_id = i)) as [<-|Hi], (decide (bill_id = j)) as [<-|Hj];
    rewrite ?lookup_insert_eq, ?lookup_insert_ne by assumption.
  - reflexivity.
  - intros H Hj' Heq. injection H as <-. exfalso.
    exact (Hfresh j bj Hj' (eq_sym Heq)).
  - intros Hi' H Heq. injection H as <-. exfalso. exact (Hfresh i bi Hi' Heq).
  - apply Hok.
Qed.

(** X13.  No request makes two stored bills carry the same number: when
    the numbers of the stored bills are pairwise different before a
    request, they are after it. *)
Theorem handle_keeps_numbers env (req : Request) (db db' : DB) :
  numbers_ok db -> handle env req db = Some db' -> numbers_ok db'.
Proof.
  intros Hok Hreq.
  destruct req as [fuel data|bill_id item_id|bill_id|hhmmss bill_id data
                   |bill_id|bill_id item_id]; cbn [handle] in Hreq.
  - destruct (create_bill env fuel data db) as [[r db0]|] eqn:Hcreate; [|discriminate].
    injection Hreq as <-.
    apply create_bill_stored in Hcreate
      as [->|(number & ps & its & added & b0 & Hgen & _ & Hnumber & Hcases)];
      [exact Hok|].
    apply generate_free in Hgen.
    pose proof (proj1 (find_bill_by_number_None _ _) Hgen) as Hfresh.
    cbn zeta in Hcases.
    apply (numbers_ok_insert_fresh db db0
             (next_id (map fst (map_to_list (bills db))))
             (Bill.calculate_totals b0 its)); [| |exact Hok].
    + intros j b Hj. cbn [Bill.calculate_totals Bill.bill_number].
      rewrite Hnumber. exact (Hfresh j b Hj).
    + destruct Hcases as [->|(pid & a & m & st & ->)]; reflexivity.
  - injection Hreq as <-.
    destruct (complete_bill_item_outcome env bill_id item_id db)
      as [->|(f & Hf & ->)]; exact Hok.
  - injection Hreq as <-.
    destruct (complete_all_outcome env bill_id db)
      as [->|(f & Hf & ->)]; exact Hok.
  - injection Hreq as <-.
    destruct (update_bill_payment_outcome env hhmmss bill_id data db)
      as [->|(bill & bill' & payment & Hbill & Hnumber & _ & _ & ->)]; [exact Hok|].
    apply (numbers_ok_insert_same db _ bill_id bill bill' Hbill Hnumber);
      [reflexivity|exact Hok].
  - injection Hreq as <-.
    destruct (cancel_bill_outcome env bill_id db)
      as [->|(bill & _ & _ & ->)]; [exact Hok|].
    intros i j bi bj. session_simpl.
    intros Hi Hj. apply lookup_delete_Some in Hi as [_ Hi].
    apply lookup_delete_Some in Hj as [_ Hj]. exact (Hok i j bi bj Hi Hj).
  - injection Hreq as <-.
    destruct (void_bill_item_outcome env bill_id item_id db)
      as [->|(bill & item & ps & Hbill & _ & _ & _ & ->)]; [exact Hok|].
    apply (numbers_ok_insert_same db _ bill_id bill
             (Bill.calculate_totals bill
                (bill_items_of bill_id (Session.delete_item item_id db)))
             Hbill eq_refl); [reflexivity|exact Hok].
Qed.

Lemma sample_unpaid_numbers : numbers_ok Sample.unpaid.
Proof.
  assert (Hbills : forall i b, bills Sample.unpaid !! i = Some b ->
            (i = 1 /\ Bill.bill_number b = "BT-261104-AAAAAAA1")
            \/ (i = 2 /\ Bill.bill_number b = "BT-261104-AAAAAAA2")).
  { intros i b Hb. cbn [bills Sample.unpaid] in Hb.
    apply lookup_insert_Some in Hb as [[<- <-]|[_ Hb]]; [left; split; reflexivity|].
    apply lookup_singleton_Some in Hb as [<- <-]. right. split; reflexivity. }
  intros i j bi bj Hi Hj Heq.
  destruct (Hbills i bi Hi) as [[-> Hni]|[-> Hni]],
           (Hbills j bj Hj) as [[-> Hnj]|[-> Hnj]];
    try reflexivity; rewrite Hni, Hnj in Heq; discriminate.
Qed.

Lemma handle_keeps_numbers_witness :
  exists db',
    handle Sample.env (CreateBill 1 Sample.two_lamps) Sample.unpaid = Some db'
    /\ size (bills Sample.unpaid) = 2%nat
    /\ size (bills db') = 3%nat
    /\ numbers_ok db'.
Proof.
  eexists.
  match goal with
  | |- ?run /\ _ => assert (Hrun : run) by (vm_compute; reflexivity)
  end.
  split; [exact Hrun|]. split; [vm_compute; reflexivity|].
  split; [vm_compute; reflexivity|].
  exact (handle_keeps_numbers _ _ _ _ sample_unpaid_numbers Hrun).
Defined.

Lemma filter_ext_in {A} (P Q : A -> Prop) `{forall x, Decision (P x)}
    `{forall x, Decision (Q x)} (l : list A) :
  (forall x, x ∈ l -> (P x <-> Q x)) -> filter P l = filter Q l.
Proof.
  induction l as [|x l IH]; intros Hext; [reflexivity|].
  rewrite !filter_cons, IH
    by (intros y Hy; apply Hext, list_elem_of_further, Hy).
  pose proof (Hext x (list_elem_of_here _ _)) as Hx.
  destruct (decide (P x)), (decide (Q x)); tauto || reflexivity.
Qed.

Lemma NoDup_map_same {A B} (g : A -> B) (l : list A) (x y : A) :
  NoDup (map g l) -> x ∈ l -> y ∈ l -> g x = g y -> x = y.
Proof.
  induction l as [|z l IH]; intros Hnd Hx Hy Heq; [inversion Hx|].
  cbn [map] in Hnd. apply NoDup_cons in Hnd as [Hz Hnd].
  assert (Hin : forall a, a ∈ l -> g a ∈ map g l).
  { intros a Ha. apply list_elem_of_In, in_map, list_elem_of_In, Ha. }
  apply elem_of_cons in Hx as [->|Hx], Hy as [->|Hy].
  - reflexivity.
  - exfalso. apply Hz. rewrite Heq. exact (Hin y Hy).
  - exfalso. apply Hz. rewrite <- Heq. exact (Hin x Hx).
  - exact (IH Hnd Hx Hy Heq).
Qed.

Lemma bill_items_of_status (f : BillItem.t -> BillItem.t) (b : Z) (db : DB) :
  status_only f ->
  BillItem.total <$> bill_items_of b (set_bill_items (map f (bill_items db)) db)
  = BillItem.total <$> bill_items_of b db.
Proof.
  intros Hf. unfold bill_items_of. session_simpl.
  induction (bill_items db) as [|it l IH]; [reflexivity|].
  cbn [map]. rewrite !filter_cons.
  destruct (status_only_fields f it Hf) as (_ & Hb & _ & Ht).
  rewrite Hb. destruct (decide (BillItem.bill_id it = b)); [|exact IH].
  cbn [fmap list_fmap]. rewrite Ht. f_equal. exact IH.
Qed.

Lemma bill_items_of_other (b bill_id : Z) (db : DB) :
  b <> bill_id ->
  filter (fun it => BillItem.bill_id it = b)
         (filter (fun it => BillItem.bill_id it <> bill_id) (bill_items db))
  = bill_items_of b db.
Proof.
  intros Hne. unfold bill_items_of. rewrite list_filter_filter.
  apply filter_ext_in. intros x _. split; [tauto|]. intros <-. tauto.
Qed.

(** X14.  No request leaves a stored bill with totals that disagree with
    its stored items: when the keys are in order and every stored bill
    carries the totals of [calculate_totals] over its items before a
    request, every stored bill does so after it. *)
Theorem handle_keeps_totals env (req : Request) (db db' : DB) :
  keys_ok db -> totals_ok db -> handle env req db = Some db' -> totals_ok db'.
Proof.
  intros (Hnd & Hfk & _) Hok Hreq.
  destruct req as [fuel data|bill_id item_id|bill_id|hhmmss bill_id data
                   |bill_id|bill_id item_id]; cbn [handle] in Hreq.
  - destruct (create_bill env fuel data db) as [[r db0]|] eqn:Hcreate; [|discriminate].
    injection Hreq as <-.
    apply create_bill_stored in Hcreate
      as [->|(number & ps & its & added & b0 & _ & _ & _ & Hcases)]; [exact Hok|].
    assert (Hstored : totals_ok
                        (snd (Session.add_bill (Bill.calculate_totals b0 its) its
                                (set_products ps db)))).
    { pose proof (bill_items_of_add_bill (Bill.calculate_totals b0 its) its
                    (set_products ps db) Hfk) as Hnew.
      cbn zeta in Hnew. session_simpl_in Hnew.
      intros b bill. session_simpl.
      destruct (decide (next_id (map fst (map_to_list (bills db))) = b)) as [<-|Hne].
      - rewrite lookup_insert_eq. intros H. injection H as <-. rewrite Hnew.
        transitivity (Bill.calculate_totals (Bill.calculate_totals b0 its) its);
          [|reflexivity].
        apply calculate_totals_fmap, number_items_fmap. reflexivity.
      - rewrite lookup_insert_ne by exact Hne. intros Hb.
        unfold bill_items_of. session_simpl.
        rewrite filter_app, (filter_none _ (Session.number_items _ _ _)), app_nil_r.
        + exact (Hok b bill Hb).
        + intros it Hit Hown. apply number_items_elem in Hit as (Hid & _).
          congruence. }
    cbn zeta in Hcases.
    destruct Hcases as [->|(pid & a & m & st & ->)]; exact Hstored.
  - injection Hreq as <-.
    destruct (complete_bill_item_outcome env bill_id item_id db)
      as [->|(f & Hf & ->)]; [exact Hok|].
    intros b bill Hb.
    rewrite (calculate_totals_fmap bill _ _ (bill_items_of_status f b db Hf)).
    exact (Hok b bill Hb).
  - injection Hreq as <-.
    destruct (complete_all_outcome env bill_id db)
      as [->|(f & Hf & ->)]; [exact Hok|].
    intros b bill Hb.
    rewrite (calculate_totals_fmap bill _ _ (bill_items_of_status f b db Hf)).
    exact (Hok b bill Hb).
  - injection Hreq as <-.
    destruct (update_bill_payment_outcome env hhmmss bill_id data db)
      as [->|(bill & bill' & payment & _ & _ & Hsame & _ & ->)]; [exact Hok|].
    intros b bill0. session_simpl.
    destruct (decide (bill_id = b)) as [<-|Hne].
    + rewrite lookup_insert_eq. intros H. injection H as <-. exact Hsame.
    + rewrite lookup_insert_ne by exact Hne. exact (Hok b bill0).
  - injection Hreq as <-.
    destruct (cancel_bill_outcome env bill_id db)
      as [->|(bill & _ & _ & ->)]; [exact Hok|].
    intros b bill0. session_simpl. intros Hb.
    apply lookup_delete_Some in Hb as [Hne Hb].
    unfold bill_items_of at 1. session_simpl.
    rewrite bill_items_of_other by congruence. exact (Hok b bill0 Hb).
  - injection Hreq as <-.
    destruct (void_bill_item_outcome env bill_id item_id db)
      as [->|(bill & item & ps & _ & Hitem & Hown & _ & ->)]; [exact Hok|].
    apply find_item_Some in Hitem as [Hid Hitem].
    intros b bill0. session_simpl.
    destruct (decide (bill_id = b)) as [<-|Hne].
    + rewrite lookup_insert_eq. intros H. injection H as <-. reflexivity.
    + rewrite lookup_insert_ne by exact Hne. intros Hb.
      unfold bill_items_of at 1. session_simpl. rewrite list_filter_filter.
      rewrite (filter_ext_in _ (fun it => BillItem.bill_id it = b));
        [exact (Hok b bill0 Hb)|].
      intros x Hx. split; [tauto|]. intros Hxb. split; [exact Hxb|].
      intros Hxid. apply Hne.
      rewrite <- Hown, <- Hxb. f_equal.
      apply (NoDup_map_same BillItem.id (bill_items db)); congruence.
Qed.

Lemma handle_keeps_totals_witness : totals_ok Sample.sold.
Proof.
  apply (handle_keeps_totals Sample.env (CreateBill 1 Sample.four_lamps) Sample.shop).
  - exact (proj1 (proj2 sample_shop_ok)).
  - exact (proj1 (proj2 (proj2 sample_shop_ok))).
  - vm_compute. reflexivity.
Defined.

End Invariants.

(** ** Requests in sequence *)

Section Sequences.
Import Routes Handlers.

Lemma complete_bill_item_runs env (bill_id item_id : Z) (db : DB)
    (bill : Bill.t) (item : BillItem.t) :
  bills db !! bill_id = Some bill ->
  find_item item_id db = Some item ->
  BillItem.bill_id item = bill_id ->
  BillItem.item_status item = "pending" ->
  commit_raises env 0 = None ->
  Session.not_null_ok db = true ->
  complete_bill_item env bill_id item_id db
  = ((ItemCompleted item_id "completed", 200),
     set_bill_items
       (map (fun it => if (BillItem.id it =? item_id)%Z
                       then BillItem.with_status "completed" it else it)
            (bill_items db)) db).
Proof.
  intros Hbill Hitem Hown Hst Hc Hnn. unfold complete_bill_item. session_simpl.
  rewrite Hbill, Hitem, Hown, Z.eqb_refl, Hst.
  change (String.eqb "pending" "pending") with true. cbn [negb].
  rewrite commit_ok by assumption. reflexivity.
Qed.

Lemma find_item_completed (item_id : Z) (db : DB) (item : BillItem.t) :
  find_item item_id db = Some item ->
  find_item item_id
    (set_bill_items
       (map (fun it => if (BillItem.id it =? item_id)%Z
                       then BillItem.with_status "completed" it else it)
            (bill_items db)) db)
  = Some (BillItem.with_status "completed" item).
Proof.
  intros Hitem. unfold find_item in Hitem |- *. session_simpl.
  rewrite (find_map_at (BillItem.with_status "completed")) by reflexivity.
  rewrite Z.eqb_refl, Hitem. reflexivity.
Qed.

(** X15.  An item that was completed and is voided afterwards is removed
    from the bill without its quantity going back to stock: the products
    after both requests are the products before them. *)
Theorem complete_then_void env env' (bill_id item_id : Z) (db : DB)
    (bill : Bill.t) (item : BillItem.t) :
  bills db !! bill_id = Some bill ->
  find_item item_id db = Some item ->
  BillItem.bill_id item = bill_id ->
  BillItem.item_status item = "pending" ->
  commit_raises env 0 = None ->
  commit_raises env' 0 = None ->
  Session.not_null_ok db = true ->
  let db1 := snd (complete_bill_item env bill_id item_id db) in
  let out := void_bill_item env' bill_id item_id db1 in
  snd (fst out) = 200
  /\ products (snd out) = products db
  /\ find_item item_id (snd out) = None
  /\ (forall j, j <> item_id -> find_item j (snd out) = find_item j db).
Proof.
  intros Hbill Hitem Hown Hst Hc Hc' Hnn. cbn zeta.
  rewrite (complete_bill_item_runs env bill_id item_id db bill item) by assumption.
  session_simpl.
  rewrite (void_bill_item_runs env' bill_id item_id _ bill
             (BillItem.with_status "completed" item));
    [|exact Hbill|apply find_item_completed, Hitem|exact Hown|exact Hc'|exact Hnn].
  cbn [BillItem.with_status BillItem.item_status].
  change (String.eqb "completed" "completed") with true. cbn iota. session_simpl.
  split; [reflexivity|]. split; [reflexivity|]. split.
  - unfold find_item. session_simpl. rewrite find_filter_ne, Z.eqb_refl. reflexivity.
  - intros j Hj. unfold find_item. session_simpl. rewrite find_filter_ne.
    apply Z.eqb_neq in Hj. rewrite Hj.
    rewrite (find_map_at (BillItem.with_status "completed")) by reflexivity.
    rewrite Hj. destruct (find _ (bill_items db)); reflexivity.
Qed.

Lemma complete_then_void_witness :
  products (snd (void_bill_item Sample.env 1 1
                   (snd (complete_bill_item Sample.env 1 1 Sample.unpaid))))
  = products Sample.unpaid.
Proof.
  apply (complete_then_void Sample.env Sample.env 1 1 Sample.unpaid
           (Bill.calculate_totals (Sample.bill "BT-261104-AAAAAAA1" 0 0)
              [Sample.item 1 1 3 "pending"; Sample.item 2 1 2 "completed"])
           (Sample.item 1 1 3 "pending"));
    vm_compute; reflexivity.
Defined.

(** X16.  Once an item was voided its id is unknown: a second void and a
    completion of the same item are both answered 400 with the not-found
    text, and store nothing. *)
Theorem void_then_again env env' (bill_id item_id : Z) (db : DB)
    (bill : Bill.t) (item : BillItem.t) :
  bills db !! bill_id = Some bill ->
  find_item item_id db = Some item ->
  BillItem.bill_id item = bill_id ->
  commit_raises env 0 = None ->
  Session.not_null_ok db = true ->
  let db1 := snd (void_bill_item env bill_id item_id db) in
  void_bill_item env' bill_id item_id db1 = ((Error not_found, 400), db1)
  /\ complete_bill_item env' bill_id item_id db1 = ((Error not_found, 400), db1).
Proof.
  intros Hbill Hitem Hown Hc Hnn. cbn zeta.
  rewrite (void_bill_item_runs env bill_id item_id db bill item) by assumption.
  session_simpl. unfold void_bill_item, complete_bill_item. session_simpl.
  rewrite lookup_insert_eq.
  assert (Hgone : forall ps b,
            find_item item_id
              (set_bill bill_id b (Session.delete_item item_id (set_products ps db)))
            = None).
  { intros ps b. unfold find_item. session_simpl.
    rewrite find_filter_ne, Z.eqb_refl. reflexivity. }
  rewrite Hgone. split; reflexivity.
Qed.

Lemma void_then_again_witness :
  void_bill_item Sample.env 1 1 (snd (void_bill_item Sample.env 1 1 Sample.unpaid))
  = ((Error not_found, 400), snd (void_bill_item Sample.env 1 1 Sample.unpaid)).
Proof.
  apply (void_then_again Sample.env Sample.env 1 1 Sample.unpaid
           (Bill.calculate_totals (Sample.bill "BT-261104-AAAAAAA1" 0 0)
              [Sample.item 1 1 3 "pending"; Sample.item 2 1 2 "completed"])
           (Sample.item 1 1 3 "pending"));
    vm_compute; reflexivity.
Defined.

(** X17.  Completing an item twice: the second request is answered 400
    'Item is already completed' and stores nothing. *)
Theorem complete_twice env env' (bill_id item_id : Z) (db : DB)
    (bill : Bill.t) (item : BillItem.t) :
  bills db !! bill_id = Some bill ->
  find_item item_id db = Some item ->
  BillItem.bill_id item = bill_id ->
  BillItem.item_status item = "pending" ->
  commit_raises env 0 = None ->
  Session.not_null_ok db = true ->
  let db1 := snd (complete_bill_item env bill_id item_id db) in
  complete_bill_item env' bill_id item_id db1
  = ((Error "Item is already completed", 400), db1).
Proof.
  intros Hbill Hitem Hown Hst Hc Hnn. cbn zeta.
  rewrite (complete_bill_item_runs env bill_id item_id db bill item) by assumption.
  session_simpl. unfold complete_bill_item at 1. session_simpl.
  rewrite Hbill, (find_item_completed item_id db item Hitem).
  cbn [BillItem.with_status BillItem.bill_id BillItem.item_status].
  rewrite Hown, Z.eqb_refl. reflexivity.
Qed.

Lemma complete_twice_witness :
  complete_bill_item Sample.env 1 1
    (snd (complete_bill_item Sample.env 1 1 Sample.unpaid))
  = ((Error "Item is already completed", 400),
     snd (complete_bill_item Sample.env 1 1 Sample.unpaid)).
Proof.
  apply (complete_twice Sample.env Sample.env 1 1 Sample.unpaid
           (Bill.calculate_totals (Sample.bill "BT-261104-AAAAAAA1" 0 0)
              [Sample.item 1 1 3 "pending"; Sample.item 2 1 2 "completed"])
           (Sample.item 1 1 3 "pending"));
    vm_compute; reflexivity.
Defined.

End Sequences.

(** ** Bounds on the totals *)

Section Bounds.
Local Open Scope Q_scope.

(** X18.  Whatever the bill, [calculate_totals] leaves a change that is
    not negative and a status that is 'paid', 'partial' or 'pending'; the
    status is 'paid' exactly when the paid amount covers the total, a
    positive change goes with 'paid' only, and 'partial' means a positive
    paid amount below the total and no change. *)
Theorem calculate_totals_change_status (b : Bill.t) (its : list BillItem.t) :
  let b' := Bill.calculate_totals b its in
  0 <= Bill.change_amount b'
  /\ (Bill.payment_status b' = "paid" \/ Bill.payment_status b' = "partial"
      \/ Bill.payment_status b' = "pending")
  /\ (Bill.payment_status b' = "paid" <-> Bill.total b' <= Bill.paid_amount b)
  /\ (0 < Bill.change_amount b' -> Bill.payment_status b' = "paid")
  /\ (Bill.payment_status b' = "partial" ->
      0 < Bill.paid_amount b /\ Bill.paid_amount b < Bill.total b'
      /\ Bill.change_amount b' = 0).
Proof.
  cbn zeta.
  cbn [Bill.calculate_totals Bill.change_amount Bill.payment_status Bill.total].
  set (total := Bill.sum_totals its - _ + _).
  set (paid := Bill.paid_amount b).
  assert (Hchange : forall x, 0 <= Py.max 0 x /\ (0 < Py.max 0 x -> 0 < x)
                              /\ (x <= 0 -> Py.max 0 x = 0)).
  { intros x. unfold Py.max. destruct (0 ?= x) eqn:E.
    - split; [apply Qle_refl|]. split; [intros H; inversion H|reflexivity].
    - apply Qlt_alt in E. split; [apply Qlt_le_weak, E|]. split; [auto|].
      intros Hle. exfalso. exact (Qlt_not_le _ _ E Hle).
    - split; [apply Qle_refl|]. split; [intros H; inversion H|reflexivity]. }
  destruct (Hchange (paid - total)) as (Hnonneg & Hpos & Hzero).
  assert (Hpaid : Bill.status_of paid total = "paid" <-> total <= paid).
  { split; [|apply status_of_paid].
    unfold Bill.status_of. destruct (Py.ge paid total) eqn:E.
    - intros _. apply py_ge_true, E.
    - destruct (Py.gt paid 0); discriminate. }
  split; [exact Hnonneg|]. split; [|split; [exact Hpaid|split]].
  - unfold Bill.status_of.
    destruct (Py.ge paid total); [auto|]. destruct (Py.gt paid 0); auto.
  - intros H. apply Hpaid. apply Hpos in H. lra.
  - unfold Bill.status_of. destruct (Py.ge paid total) eqn:Ege; [discriminate|].
    destruct (Py.gt paid 0) eqn:Egt; [|discriminate]. intros _.
    apply py_gt_true in Egt.
    assert (Hlt : paid < total).
    { apply Qnot_le_lt. intros Hle. apply py_ge_true in Hle. congruence. }
    split; [exact Egt|]. split; [exact Hlt|]. apply Hzero. lra.
Qed.

Lemma calculate_totals_change_status_witness :
  Bill.payment_status
    (Bill.calculate_totals
       (Bill.mk "n" "c" 0 10 "percentage" 5 "percentage" 0 400 0 "cash" "pending")
       [Sample.item 1 1 4 "pending"])
  = "paid".
Proof.
  apply (calculate_totals_change_status
           (Bill.mk "n" "c" 0 10 "percentage" 5 "percentage" 0 400 0 "cash" "pending")
           [Sample.item 1 1 4 "pending"]).
  vm_compute. reflexivity.
Defined.

End Bounds.

(** ** Cancelling a bill that has no payment, and unknown bills *)

Section NoPayment.
Import Routes Handlers.




(** X21.  A request that names a bill id under which no bill is stored
    changes nothing.  The handlers that write answer 400 with the text of
    the not-found exception, [get_pending_bill_items] answers 400 'Failed
    to fetch pending items' and [get_bill_by_id] answers 404 'Bill not
    found'. *)
Theorem unknown_bill_rejected env (hhmmss : string) (bill_id item_id : Z)
    (data : PaymentData) (db : DB) :
  bills db !! bill_id = None ->
  complete_bill_item env bill_id item_id db = ((Error not_found, 400), db)
  /\ void_bill_item env bill_id item_id db = ((Error not_found, 400), db)
  /\ cancel_bill env bill_id db = ((Error not_found, 400), db)
  /\ complete_all_bill_items env bill_id db = ((Failed not_found, 400), db)
  /\ update_bill_payment env hhmmss bill_id data db = ((Failed not_found, 400), db)
  /\ get_pending_bill_items bill_id db = (Failed "Failed to fetch pending items", 400)
  /\ get_bill_by_id bill_id db = (Failed "Bill not found", 404).
Proof.
  intros Hnone.
  unfold complete_bill_item, void_bill_item, cancel_bill, complete_all_bill_items,
    update_bill_payment, get_pending_bill_items, get_bill_by_id.
  session_simpl. rewrite Hnone. repeat split.
Qed.

Lemma unknown_bill_rejected_witness :
  cancel_bill Sample.env 9 Sample.unpaid = ((Error not_found, 400), Sample.unpaid).
Proof.
  apply (unknown_bill_rejected Sample.env "101500" 9 1 (mkPayment None None None)
           Sample.unpaid).
  vm_compute. reflexivity.
Defined.

End NoPayment.
